(** * The Cursed Energy Handbook generator (jkj_handbook_generator.py)

    A shallow embedding of the one-shot ReportLab script.  The script is
    a sequence of module-level statements: it tries to register three
    TrueType fonts, declares a palette, a page decorator ([on_page],
    [header_footer]), a document template, a style registry and an ordered
    list of flowables, and finally calls [doc.build].

    Lengths are Python floats in the source; here they are exact rationals
    ([Q]) in PostScript points, so that [20*mm] is the rational 20 * 72/25.4. *)

From Stdlib Require Import QArith Qminmax Lqa Lia.
From Stdlib Require Import DecimalString DecimalNat.
From stdpp Require Import gmap strings list sorting.

Local Open Scope Q_scope.

(** ** Imported constants *)

(** reportlab.lib.units *)
Module units.
Definition inch : Q := 72.
Definition cm : Q := inch / 2.54.
Definition mm : Q := cm * 0.1.
End units.
Export units.

(** reportlab.lib.pagesizes *)
Definition A4 : Q * Q := (210 * mm, 297 * mm).

(** reportlab.lib.colors: a colour is given by its hex string or by name. *)
Inductive color : Type :=
  | HexColor (hex : string)
  | gray
  | black.

(** reportlab.lib.enums *)
Inductive alignment : Type := TA_LEFT | TA_CENTER | TA_RIGHT.

(** ** Exceptions and the state-and-exception monad

    Module-level Python code threads one mutable world through every call
    and any call may raise.  [ST S A] is a computation over a state [S]
    that either raises or returns a value with the next state. *)

Inductive exn : Type :=
  | TTFError (path : string)      (* TTFont: cannot open the font file *)
  | KeyError (key : string)       (* lookup of a missing key or font *)
  | ValueError (msg : string)     (* Paragraph: font name not registered *)
  | NameError (name : string)     (* unbound global *)
  | AttributeError (attr : string)
  | IndexError                    (* pop from an empty list *)
  | LayoutError (msg : string).   (* raised by the layout engine *)

Definition ST (S A : Type) : Type := S -> (exn + A) * S.

Definition ret {S A} (a : A) : ST S A := fun s => (inr a, s).

Definition bind {S A B} (m : ST S A) (k : A -> ST S B) : ST S B :=
  fun s => match m s with
           | (inl e, s') => (inl e, s')
           | (inr a, s') => k a s'
           end.

Definition raise {S A} (e : exn) : ST S A := fun s => (inl e, s).

(** [try: body / except: handler] with a bare [except], which catches every
    exception.  What [body] changed before it raised stays changed. *)
Definition try_except {S} (body handler : ST S unit) : ST S unit :=
  fun s => match body s with
           | (inl _, s') => handler s'
           | (inr tt, s') => (inr tt, s')
           end.

Definition modify {S} (f : S -> S) : ST S unit := fun s => (inr tt, f s).

Notation "'let*' x ':=' m 'in' k" := (bind m (fun x => k))
  (at level 10, x name, m at level 100, k at level 200).
Notation "m '>>' k" := (bind m (fun _ => k))
  (at level 90, right associativity).

(** Module-level statements run in order; the first exception stops the run. *)
Definition exec {S} (stmts : list (ST S unit)) : ST S unit :=
  fold_right (fun stmt rest => stmt >> rest) (ret tt) stmts.

(** ** The canvas (reportlab.pdfgen.canvas.Canvas)

    Only what the decorator touches: the graphics state, the stack of saved
    graphics states, the page number, and the marks painted so far on the
    current page, oldest first. *)

Record gstate : Type := {
  fillColor : color;
  strokeColor : color;
  lineWidth : Q;
  fontName : string;
  fontSize : Q;
}.

Inductive mark : Type :=
  | MRect (x y width height : Q) (stroke fill : bool) (gs : gstate)
  | MLine (x1 y1 x2 y2 : Q) (gs : gstate)
  | MRightString (x y : Q) (text : string) (gs : gstate).

Record canvas : Type := {
  gs : gstate;
  stateStack : list gstate;
  pageNumber : nat;
  marks : list mark;
}.

Definition set_gs (f : gstate -> gstate) : ST canvas unit :=
  modify (fun c => {| gs := f (gs c); stateStack := stateStack c;
                      pageNumber := pageNumber c; marks := marks c |}).

Definition paint (m : gstate -> mark) : ST canvas unit :=
  modify (fun c => {| gs := gs c; stateStack := stateStack c;
                      pageNumber := pageNumber c; marks := marks c ++ [m (gs c)] |}).

Definition setFillColor (col : color) : ST canvas unit :=
  set_gs (fun g => {| fillColor := col; strokeColor := strokeColor g;
                      lineWidth := lineWidth g; fontName := fontName g;
                      fontSize := fontSize g |}).

Definition setStrokeColor (col : color) : ST canvas unit :=
  set_gs (fun g => {| fillColor := fillColor g; strokeColor := col;
                      lineWidth := lineWidth g; fontName := fontName g;
                      fontSize := fontSize g |}).

Definition setLineWidth (w : Q) : ST canvas unit :=
  set_gs (fun g => {| fillColor := fillColor g; strokeColor := strokeColor g;
                      lineWidth := w; fontName := fontName g;
                      fontSize := fontSize g |}).

(** [setFont] looks the font up in pdfmetrics' registry, the module-level
    set [registered] of font names, and raises KeyError for a name that is
    not in it. *)
Definition setFont (registered : gset string) (psfontname : string) (size : Q)
  : ST canvas unit :=
  if decide (psfontname ∈ registered)
  then set_gs (fun g => {| fillColor := fillColor g; strokeColor := strokeColor g;
                           lineWidth := lineWidth g; fontName := psfontname;
                           fontSize := size |})
  else raise (KeyError psfontname).

Definition saveState : ST canvas unit :=
  modify (fun c => {| gs := gs c; stateStack := gs c :: stateStack c;
                      pageNumber := pageNumber c; marks := marks c |}).

Definition restoreState : ST canvas unit :=
  fun c => match stateStack c with
           | [] => (inl IndexError, c)
           | g :: st => (inr tt, {| gs := g; stateStack := st;
                                    pageNumber := pageNumber c; marks := marks c |})
           end.

Definition getPageNumber : ST canvas nat :=
  fun c => (inr (pageNumber c), c).

Definition line (x1 y1 x2 y2 : Q) : ST canvas unit := paint (MLine x1 y1 x2 y2).

Definition rect (x y width height : Q) (stroke fill : bool) : ST canvas unit :=
  paint (MRect x y width height stroke fill).

Definition drawRightString (x y : Q) (text : string) : ST canvas unit :=
  paint (MRightString x y text).

(** Python's [str] on a non-negative int: its decimal numeral. *)
Definition str (n : nat) : string := NilEmpty.string_of_uint (Nat.to_uint n).

(** ** The script: output path, palette, page size *)

Definition OUT_PDF : string := "Jujutsu_Kaisen_The_Cursed_Energy_Handbook.pdf".

Definition ACCENT_VIOLET : color := HexColor "#8A2BE2".
Definition ACCENT_CRIMSON : color := HexColor "#D7263D".
Definition OBSIDIAN : color := HexColor "#0B0B0D".
Definition PAPER : color := HexColor "#0F1113".
Definition TEXT_LIGHT : color := HexColor "#EDEDED".

Definition PAGE_WIDTH : Q := fst A4.
Definition PAGE_HEIGHT : Q := snd A4.

(** The document template: [SimpleDocTemplate(OUT_PDF, pagesize=A4, ...)]. *)
Record SimpleDocTemplate : Type := {
  filename : string;
  pagesize : Q * Q;
  leftMargin : Q;
  rightMargin : Q;
  topMargin : Q;
  bottomMargin : Q;
}.

(** ** The page decorator

    [canvas_obj] is the state the [ST canvas] computation threads, and
    [registered] is pdfmetrics' font registry, the global the canvas
    consults when a font is set. *)

Definition header_footer (registered : gset string) (doc : SimpleDocTemplate)
  : ST canvas unit :=
  (setFillColor ACCENT_VIOLET >>
   setStrokeColor ACCENT_VIOLET >>
   setLineWidth 0.8 >>
   (* top accent line *)
   line (20*mm) (PAGE_HEIGHT - 18*mm) (PAGE_WIDTH - 20*mm) (PAGE_HEIGHT - 18*mm) >>
   (* footer line *)
   line (20*mm) (18*mm) (PAGE_WIDTH - 20*mm) (18*mm) >>
   (* page number *)
   setFont registered "SourceSans" 9 >>
   setFillColor TEXT_LIGHT >>
   let* page_num := getPageNumber in
   drawRightString (PAGE_WIDTH - 20*mm) (12*mm) ("Page " ++ str page_num)%string).

Definition doc : SimpleDocTemplate := {|
  filename := OUT_PDF;
  pagesize := A4;
  leftMargin := 20*mm;
  rightMargin := 20*mm;
  topMargin := 25*mm;
  bottomMargin := 25*mm;
|}.

Definition on_page (registered : gset string) (doc : SimpleDocTemplate)
  : ST canvas unit :=
  (* Draw background rectangle (subtle) *)
  saveState >>
  setFillColor OBSIDIAN >>
  rect 0 0 PAGE_WIDTH PAGE_HEIGHT false true >>
  restoreState >>
  header_footer registered doc.

(** ** Styles and flowables (reportlab.platypus) *)

Record ParagraphStyle : Type := {
  style_name : string;
  style_fontName : string;
  style_fontSize : Q;
  leading : Q;
  style_alignment : alignment;
  textColor : color;
  spaceBefore : Q;
  spaceAfter : Q;
}.

(** The [styles] dict.  [spaceBefore] and [spaceAfter] default to 0. *)
Definition styles : gmap string ParagraphStyle :=
  list_to_map [
    ("h1"%string, {| style_name := "h1"; style_fontName := "SourceSans-Bold"; style_fontSize := 28; leading := 34; style_alignment := TA_CENTER; textColor := TEXT_LIGHT; spaceBefore := 0; spaceAfter := 6 |});
    ("h2"%string, {| style_name := "h2"; style_fontName := "SourceSans-Bold"; style_fontSize := 18; leading := 22; style_alignment := TA_LEFT; textColor := TEXT_LIGHT; spaceBefore := 8; spaceAfter := 0 |});
    ("normal"%string, {| style_name := "normal"; style_fontName := "SourceSans"; style_fontSize := 11; leading := 15; style_alignment := TA_LEFT; textColor := TEXT_LIGHT; spaceBefore := 0; spaceAfter := 0 |});
    ("em"%string, {| style_name := "em"; style_fontName := "SourceSans"; style_fontSize := 11; leading := 15; style_alignment := TA_LEFT; textColor := ACCENT_VIOLET; spaceBefore := 0; spaceAfter := 0 |});
    ("toc"%string, {| style_name := "toc"; style_fontName := "SourceSans"; style_fontSize := 12; leading := 16; style_alignment := TA_LEFT; textColor := TEXT_LIGHT; spaceBefore := 0; spaceAfter := 0 |});
    ("cover_title"%string, {| style_name := "cover_title"; style_fontName := "SourceSans-Bold"; style_fontSize := 36; leading := 42; style_alignment := TA_CENTER; textColor := TEXT_LIGHT; spaceBefore := 0; spaceAfter := 0 |});
    ("subtitle"%string, {| style_name := "subtitle"; style_fontName := "SourceSans"; style_fontSize := 14; leading := 18; style_alignment := TA_CENTER; textColor := ACCENT_VIOLET; spaceBefore := 0; spaceAfter := 0 |})
  ].

(** A paragraph's text: a literal, or a literal passed through
    [textwrap.fill(text, width)]. *)
Inductive text : Type :=
  | Lit (s : string)
  | textwrap_fill (s : string) (width : nat).

(** A table cell: a string, or a reference to a flowable object. *)
Inductive cell : Type :=
  | Str (s : string)
  | Obj (ref : nat).

(** One [TableStyle] command: ("OP", (sc, sr), (ec, er), args...). *)
Inductive style_arg : Type :=
  | AColor (c : color)
  | ANum (q : Q)
  | AStr (s : string).

Record style_cmd : Type := {
  cmd_op : string;
  cmd_start : Z * Z;
  cmd_stop : Z * Z;
  cmd_args : list style_arg;
}.

Definition cmd (op : string) (start stop : Z * Z) (args : list style_arg) : style_cmd :=
  {| cmd_op := op; cmd_start := start; cmd_stop := stop; cmd_args := args |}.

(** The four flowable classes the script instantiates.  A [Table] carries
    the style commands applied to it so far. *)
Inductive Flowable : Type :=
  | Spacer (width height : Q)
  | Paragraph (t : text) (style : ParagraphStyle)
  | Table (data : list (list cell)) (colWidths : list Q)
          (rowHeights : option (list Q)) (hAlign : string)
          (tstyle : list style_cmd)
  | PageBreak.

Definition is_PageBreak (f : Flowable) : bool :=
  match f with PageBreak => true | _ => false end.

Definition is_Table (f : Flowable) : bool :=
  match f with Table _ _ _ _ _ => true | _ => false end.

(** [sum(colWidths)] *)
Definition sum (l : list Q) : Q := fold_left Qplus l 0.

Definition table_width (f : Flowable) : option Q :=
  match f with
  | Table _ colWidths _ _ _ => Some (sum colWidths)
  | _ => None
  end.

(** ** The layout engine

    [SimpleDocTemplate.build] belongs to ReportLab, which the repository
    imports and does not contain.  The definitions of this section follow
    the contract the specification gives for it. *)

(** Modelled from the spec: a flowable laid out on a page, with the index it
    has in the content sequence and the vertical extent it was given inside
    the usable content area (the engine's placement, not in the sources). *)
Record box : Type := {
  index : nat;
  item : Flowable;
  top : Q;
  bottom : Q;
}.

(** Modelled from the spec: a finished physical page: its 1-based number, what
    the page decorator painted, and the flowed content from the top down
    (the engine's page, not in the sources). *)
Record page : Type := {
  number : nat;
  decoration : list mark;
  body : list box;
}.

(** Modelled from the spec: what a successful build hands over: the pages in
    order and how many page breaks content overflow induced (the engine's
    result, not in the sources). *)
Record document : Type := {
  pages : list page;
  automatic_breaks : nat;
}.

(** Modelled from the spec: what gets painted on a page, a mark of the
    decorator or a laid-out flowable (the engine's painting, not in the
    sources). *)
Inductive painted : Type :=
  | Deco (m : mark)
  | Flow (b : box).

(** Modelled from the spec: the final image of a page, in paint order (the
    engine's painting, not in the sources).  The decorator's marks come
    first and the flowed content goes over them: the callback is the one
    given for the start of a page, and it fills the whole sheet. *)
Definition image (p : page) : list painted :=
  map Deco (decoration p) ++ map Flow (body p).

(** Modelled from the spec: the page's usable content area, "page size minus
    margins" (the engine's frame, not in the sources). *)
Definition usable_width (d : SimpleDocTemplate) : Q :=
  fst (pagesize d) - leftMargin d - rightMargin d.

(** Modelled from the spec: the upper and lower edge of the usable content
    area (the engine's frame, not in the sources). *)
Definition frame_top (d : SimpleDocTemplate) : Q :=
  snd (pagesize d) - topMargin d.

Definition frame_bottom (d : SimpleDocTemplate) : Q :=
  bottomMargin d.

(** Modelled from the spec: "a table wider than the page's usable width" (the
    engine's width check, not in the sources). *)
Definition too_wide (d : SimpleDocTemplate) (f : Flowable) : bool :=
  match table_width f with
  | Some w => negb (Qle_bool w (usable_width d))
  | None => false
  end.

(** Modelled from the spec: the state of the flowing pass (the engine's, not
    in the sources): the pages already closed and the page being filled,
    both latest first, the height at which the next flowable goes, and the
    number of automatic breaks so far. *)
Record flow_state : Type := {
  finished : list (list box);
  current : list box;
  cursor : Q;
  breaks : nat;
}.

(** Modelled from the spec: the drawing surface of page [k] as the decorator
    receives it, in the initial graphics state and reporting the 1-based
    page number [k] (the engine's canvas, not in the sources). *)
Definition blank (k : nat) : canvas :=
  {| gs := {| fillColor := black; strokeColor := black; lineWidth := 1;
              fontName := "Helvetica"; fontSize := 12 |};
     stateStack := []; pageNumber := k; marks := [] |}.

Section Engine.

(** The height the engine's text wrapping and font metrics give a
    flowable; it is the engine's business and stays a parameter. *)
Variable height_of : Flowable -> Q.

Variable d : SimpleDocTemplate.

(** Modelled from the spec: the empty first page (the engine's, not in the
    sources). *)
Definition start : flow_state :=
  {| finished := []; current := []; cursor := frame_top d; breaks := 0 |}.

(** Modelled from the spec: closing the page being filled and opening the
    next one (the engine's, not in the sources). *)
Definition new_page (automatic : bool) (st : flow_state) : flow_state :=
  {| finished := current st :: finished st;
     current := [];
     cursor := frame_top d;
     breaks := if automatic then S (breaks st) else breaks st |}.

(** Modelled from the spec: putting a flowable of height [h] at the cursor
    (the engine's, not in the sources). *)
Definition put_box (i : nat) (f : Flowable) (h : Q) (st : flow_state) : flow_state :=
  {| finished := finished st;
     current := {| index := i; item := f; top := cursor st;
                   bottom := cursor st - h |} :: current st;
     cursor := cursor st - h;
     breaks := breaks st |}.

(** Modelled from the spec: "text/table flowing, automatic page-breaking when
    content exceeds remaining vertical space, explicit page-breaking at
    PageBreak markers"; a table wider than the usable width, or a flowable
    taller than a whole page, is an unrecoverable layout error (the
    engine's flowing step, not in the sources). *)
Definition place (i : nat) (f : Flowable) (st : flow_state) : exn + flow_state :=
  if is_PageBreak f then inr (new_page false st)
  else if too_wide d f then inl (LayoutError "table wider than the usable width")
  else
    let h := height_of f in
    if Qle_bool h (cursor st - frame_bottom d) then inr (put_box i f h st)
    else if Qle_bool h (frame_top d - frame_bottom d)
         then inr (put_box i f h (new_page true st))
         else inl (LayoutError "flowable too large for a page").

(** Modelled from the spec: the flowing pass over the content sequence, in
    order, from index [i] on (the engine's, not in the sources). *)
Fixpoint flow (i : nat) (fs : list Flowable) (st : flow_state) : exn + flow_state :=
  match fs with
  | [] => inr st
  | f :: rest =>
      match place i f st with
      | inl e => inl e
      | inr st' => flow (S i) rest st'
      end
  end.

(** Modelled from the spec: the bodies of all pages, first page first, each
    from the top down (the engine's, not in the sources). *)
Definition bodies (st : flow_state) : list (list box) :=
  reverse (reverse <$> (current st :: finished st)).

Variables onFirstPage onLaterPages : SimpleDocTemplate -> ST canvas unit.

(** Modelled from the spec: "decorator invocation per page", once per
    physical page, on that page's own drawing surface; the first page
    gets [onFirstPage], every other one [onLaterPages] (the engine's, not
    in the sources). *)
Definition decorate (k : nat) (content : list box) : exn + page :=
  let callback := if Nat.eqb k 1 then onFirstPage else onLaterPages in
  match callback d (blank k) with
  | (inl e, _) => inl e
  | (inr tt, c) => inr {| number := k; decoration := marks c; body := content |}
  end.

(** Modelled from the spec: the pages in order, numbered from [k] on (the
    engine's, not in the sources). *)
Fixpoint decorate_from (k : nat) (contents : list (list box)) : exn + list page :=
  match contents with
  | [] => inr []
  | content :: rest =>
      match decorate k content with
      | inl e => inl e
      | inr p =>
          match decorate_from (S k) rest with
          | inl e => inl e
          | inr ps => inr (p :: ps)
          end
      end
  end.

(** Modelled from the spec: the engine's single "build" operation (not in
    the sources): flow the content, decorate every page, and hand the
    document over; or fail with the layout error. *)
Definition layout (flowables : list Flowable) : exn + document :=
  match flow 0 flowables start with
  | inl e => inl e
  | inr st =>
      match decorate_from 1 (bodies st) with
      | inl e => inl e
      | inr ps => inr {| pages := ps; automatic_breaks := breaks st |}
      end
  end.

End Engine.

(** ** The world the script runs in *)

Inductive file : Type :=
  | TrueType                 (* a readable TrueType font file *)
  | Pdf (content : document) (* a document written by a build *).

(** reportlab.pdfbase: the fonts every canvas knows without registration. *)
Definition standardFonts : gset string :=
  list_to_set [ "Courier"; "Courier-Bold"; "Courier-Oblique"; "Courier-BoldOblique";
                "Helvetica"; "Helvetica-Bold"; "Helvetica-Oblique"; "Helvetica-BoldOblique";
                "Times-Roman"; "Times-Bold"; "Times-Italic"; "Times-BoldItalic";
                "Symbol"; "ZapfDingbats" ]%string.

Record world : Type := {
  files : gmap string file;     (* the filesystem *)
  fonts : gset string;          (* pdfmetrics: the registered font names *)
  heap : list Flowable;         (* the flowable objects, by reference *)
  globals : gmap string nat;    (* module names bound to flowable objects *)
  elements : list nat;          (* the list [elements]: references, in order *)
  stdout : list string;
}.

(** The interpreter starts on a filesystem [fs] with nothing else. *)
Definition boot (fs : gmap string file) : world :=
  {| files := fs; fonts := standardFonts; heap := []; globals := ∅;
     elements := []; stdout := [] |}.

(** [TTFont(name, filename)] opens and parses the font file. *)
Definition TTFont (name filename : string) : ST world string :=
  fun w => match files w !! filename with
           | Some TrueType => (inr name, w)
           | _ => (inl (TTFError filename), w)
           end.

Definition registerFont (font : ST world string) : ST world unit :=
  let* name := font in
  modify (fun w => {| files := files w; fonts := {[ name ]} ∪ fonts w; heap := heap w;
                      globals := globals w; elements := elements w; stdout := stdout w |}).

(** Lines 30-36. *)
Definition register_fonts : ST world unit :=
  try_except
    (registerFont (TTFont "SourceSans" "/usr/share/fonts/truetype/dejavu/DejaVuSans.ttf") >>
     registerFont (TTFont "SourceSans-Bold" "/usr/share/fonts/truetype/dejavu/DejaVuSans-Bold.ttf") >>
     registerFont (TTFont "SourceSerif" "/usr/share/fonts/truetype/dejavu/DejaVuSerif.ttf"))
    (* Fallback to default fonts if system fonts not found *)
    (ret tt).

(** A new object goes to the end of the heap; its reference is its index. *)
Definition allocate (f : Flowable) : ST world nat :=
  fun w => (inr (length (heap w)),
            {| files := files w; fonts := fonts w; heap := heap w ++ [f];
               globals := globals w; elements := elements w; stdout := stdout w |}).

(** Constructing a flowable allocates a new object and yields its
    reference.  [Paragraph(text, style)] parses its text in the font of the
    style right away and raises ValueError when no font is registered under
    that name; nothing is allocated then. *)
Definition new (f : Flowable) : ST world nat :=
  match f with
  | Paragraph _ st =>
      fun w => if decide (style_fontName st ∈ fonts w)
               then allocate f w
               else (inl (ValueError (style_fontName st)), w)
  | _ => allocate f
  end.

(** [styles[key]] *)
Definition styles_getitem (key : string) : ST world ParagraphStyle :=
  match styles !! key with
  | Some st => ret st
  | None => raise (KeyError key)
  end.

Definition paragraph (t : text) (key : string) : ST world nat :=
  let* st := styles_getitem key in new (Paragraph t st).

(** [Table(data, colWidths=..., rowHeights=..., hAlign=...)]; [hAlign]
    defaults to CENTER and a new table has no style command yet. *)
Definition table (data : list (list cell)) (colWidths : list Q)
    (rowHeights : option (list Q)) (hAlign : string) : ST world nat :=
  new (Table data colWidths rowHeights hAlign []).

(** [x = e] *)
Definition assign (x : string) (e : ST world nat) : ST world unit :=
  let* r := e in
  modify (fun w => {| files := files w; fonts := fonts w; heap := heap w;
                      globals := <[ x := r ]> (globals w); elements := elements w;
                      stdout := stdout w |}).

(** Reading the name [x]. *)
Definition name (x : string) : ST world nat :=
  fun w => match globals w !! x with
           | Some r => (inr r, w)
           | None => (inl (NameError x), w)
           end.

(** [elements.append(e)] *)
Definition append (e : ST world nat) : ST world unit :=
  let* r := e in
  modify (fun w => {| files := files w; fonts := fonts w; heap := heap w;
                      globals := globals w; elements := elements w ++ [r];
                      stdout := stdout w |}).

(** [x.setStyle(TableStyle(cmds))]: the commands are added to the table
    object in place. *)
Definition setStyle (x : string) (cmds : list style_cmd) : ST world unit :=
  let* r := name x in
  fun w => match heap w !! r with
           | Some (Table data cw rh ha ts) =>
               (inr tt,
                {| files := files w; fonts := fonts w;
                   heap := <[ r := Table data cw rh ha (ts ++ cmds) ]> (heap w);
                   globals := globals w; elements := elements w; stdout := stdout w |})
           | _ => (inl (AttributeError "setStyle"), w)
           end.

Definition print (s : string) : ST world unit :=
  modify (fun w => {| files := files w; fonts := fonts w; heap := heap w;
                      globals := globals w; elements := elements w;
                      stdout := stdout w ++ [s] |}).

(** ** The content sequence, lines 84-268, statement by statement *)

Definition toc_text : string := "
1. The World of Jujutsu<br/>
2. Character Creation<br/>
3. Cursed Energy System<br/>
4. Archetypes (Classes)<br/>
&nbsp;&nbsp;4.1 Cursed Technique User<br/>
&nbsp;&nbsp;4.2 Cursed Tool Specialist<br/>
&nbsp;&nbsp;4.3 Shikigami Summoner<br/>
&nbsp;&nbsp;4.4 Reverse Curse User<br/>
&nbsp;&nbsp;4.5 Domain Specialist<br/>
&nbsp;&nbsp;4.6 Vessel / Contract User<br/>
5. Combat & Techniques<br/>
6. Bestiary<br/>
7. Game Master Tools<br/>
Appendix: Sample Characters, Starter Module, Index
".

Definition lore : string := "
Curses are born from the negative emotions of humanity. Jujutsu Sorcerers manipulate cursed energy to exorcise these manifestations...
".

Definition bg_table_data : list (list cell) := [
  [Str "Student of Jujutsu Tech"; Str "Gain Arcana & Insight"];
  [Str "Cursed Tool Apprentice"; Str "Gain Athletics & Sleight of Hand"];
  [Str "Exorcist's Lineage"; Str "Gain History & Religion"];
  [Str "Survivor of a Curse Attack"; Str "Gain Perception & Stealth"];
  [Str "Vessel / Pact-Bound"; Str "Gain Intimidation & Deception"]
].

Definition cep_text : string := "CEP = 10 + Level + CON modifier + WIS modifier. CEP recovers fully on a long rest, and half on a short rest. Players may convert HP to CEP at the rate 1 HP → 1 CEP.".

Definition ctu_desc : string := "
Specializes in a unique cursed technique. Choose a Signature Technique at Level 1 and evolve it as you level.
".

Definition ctu_table_data : list (list cell) := [
  [Str "Level"; Str "Feature"; Str "CEP Cost"];
  [Str "1"; Str "Signature Technique (choose one)"; Str "Varies (3–5)"];
  [Str "5"; Str "Technique Extension"; Str "+2 CEP"];
  [Str "10"; Str "Domain Expansion (unstable)"; Str "10 CEP"];
  [Str "15"; Str "Domain Perfection"; Str "n/a"];
  [Str "20"; Str "True Technique Evolution"; Str "n/a"]
].

Definition tech_table_data : list (list cell) := [
  [Str "Technique"; Str "Effect"; Str "Sample Flavor"];
  [Str "Cursed Speech"; Str "Command/paralyze (WIS save)"; Str "Inumaki-style"];
  [Str "Ratio"; Str "Strike weak points for increased damage"; Str "Nanami-style"];
  [Str "Boogie Woogie"; Str "Swap positions of entities"; Str "Todo-style"];
  [Str "Shadow Binding"; Str "Control enemy movement via shadows"; Str "Megumi-inspired"]
].

Definition yuji_text : string := "
Archetype: Vessel / Contract User
Level: 3
CEP: 10 + 3 + CON_mod + WIS_mod = (example)
Background: Survivor of a curse attack
Abilities: Enhanced physicals, fast healer, can host an inner curse (Sukuna analogue)
Equipment: None (relies on body and cursed energy)
Playstyle notes: Close-quarters combatant with burst CEP usage. 
".

Definition gojo_text : string := "
Archetype: Domain Specialist / Unique Technique User
Level: Legendary (GM only)
Signature: Infinity-like barrier (flavored)
Notes: Use as high-level NPC with Domain Perfection and Reality Rewrite.
".

Definition adv_text : string := "
The players are new recruits assigned to investigate a rural shrine where villagers have been disappearing...
".

Definition hc_text : string := "
HP: 12 | Damage: 1d6 | Abilities: Haunting Wail (debuff), Possess small objects.
Tactics: Harass and separate party members.
".

Definition index_text : string := "This index is a placeholder. After final edits, update page numbers and index entries.".

Definition content : list (ST world unit) := [
  (* Cover Page *)
  append (new (Spacer 1 (40*mm)));
  assign "title" (paragraph (Lit "Jujutsu Kaisen: <br/><b>The Cursed Energy Handbook</b>") "cover_title");
  append (name "title");
  append (new (Spacer 1 (10*mm)));
  assign "subtitle" (paragraph (Lit "A modern roleplaying sourcebook — A4 layout") "subtitle");
  append (name "subtitle");
  append (new (Spacer 1 (8*mm)));
  assign "desc" (paragraph (Lit "A homebrew Jujutsu Kaisen tabletop system. Includes archetypes, cursed energy mechanics, domains, bestiary, sample characters, and a starter module.") "normal");
  append (new (Spacer 1 (12*mm)));
  append (name "desc");
  append (new (Spacer 1 (20*mm)));
  (* Stylized crest placeholder *)
  assign "crest_box" (table [[Str " "]] [160*mm] (Some [40*mm]) "CENTER");
  setStyle "crest_box" [
    cmd "BACKGROUND" (0, 0)%Z (-1, -1)%Z [AColor ACCENT_VIOLET];
    cmd "BOX" (0, 0)%Z (-1, -1)%Z [ANum 2; AColor ACCENT_CRIMSON] ];
  append (name "crest_box");
  append (new PageBreak);

  (* Table of Contents *)
  append (paragraph (Lit "Table of Contents") "h1");
  append (paragraph (Lit toc_text) "toc");
  append (new PageBreak);

  (* Chapter 1: The World of Jujutsu *)
  append (paragraph (Lit "Chapter 1: The World of Jujutsu") "h1");
  append (paragraph (Lit lore) "normal");
  append (new (Spacer 1 (6*mm)));
  (* Insert a two-column lore block *)
  assign "col1" (paragraph (textwrap_fill "Curses: manifestations of fear, hatred, and malice. They range from harmless apparitions to Special Grade horrors that warp reality." 80) "normal");
  assign "col2" (paragraph (textwrap_fill "Society: Jujutsu schools like Tokyo and Kyoto teach sorcerers to control cursed energy, enforce binding vows, and police curses." 80) "normal");
  assign "table" (let* col1 := name "col1" in let* col2 := name "col2" in
                  table [[Obj col1; Obj col2]] [85*mm; 85*mm] None "CENTER");
  setStyle "table" [
    cmd "VALIGN" (0, 0)%Z (-1, -1)%Z [AStr "TOP"];
    cmd "LEFTPADDING" (0, 0)%Z (-1, -1)%Z [ANum 6] ];
  append (name "table");
  append (new PageBreak);

  (* Chapter 2: Character Creation (sample) *)
  append (paragraph (Lit "Chapter 2: Character Creation") "h1");
  append (paragraph (Lit "Backgrounds") "h2");
  assign "bg_table" (table bg_table_data [60*mm; 100*mm] None "LEFT");
  setStyle "bg_table" [
    cmd "BACKGROUND" (0, 0)%Z (-1, 0)%Z [AColor PAPER];
    cmd "TEXTCOLOR" (0, 0)%Z (-1, -1)%Z [AColor TEXT_LIGHT];
    cmd "GRID" (0, 0)%Z (-1, -1)%Z [ANum 0.25; AColor gray];
    cmd "FONTNAME" (0, 0)%Z (-1, -1)%Z [AStr "SourceSans"];
    cmd "FONTSIZE" (0, 0)%Z (-1, -1)%Z [ANum 10];
    cmd "LEFTPADDING" (0, 0)%Z (-1, -1)%Z [ANum 6] ];
  append (name "bg_table");
  append (new (Spacer 1 (6*mm)));

  (* CEP Table (Cursed Energy Points) *)
  append (paragraph (Lit "Cursed Energy Points (CEP)") "h2");
  append (paragraph (Lit cep_text) "normal");
  append (new PageBreak);

  (* Chapter 4: Archetypes *)
  append (paragraph (Lit "Chapter 4: Archetypes (Classes)") "h1");
  append (paragraph (Lit "4.1 Cursed Technique User") "h2");
  append (paragraph (Lit ctu_desc) "normal");
  (* Add a level feature table *)
  assign "ctu_table" (table ctu_table_data [25*mm; 100*mm; 30*mm] None "CENTER");
  setStyle "ctu_table" [
    cmd "BACKGROUND" (0, 0)%Z (-1, 0)%Z [AColor ACCENT_VIOLET];
    cmd "TEXTCOLOR" (0, 0)%Z (-1, -1)%Z [AColor TEXT_LIGHT];
    cmd "GRID" (0, 0)%Z (-1, -1)%Z [ANum 0.25; AColor gray];
    cmd "FONTNAME" (0, 0)%Z (-1, -1)%Z [AStr "SourceSans"];
    cmd "FONTSIZE" (0, 0)%Z (-1, -1)%Z [ANum 10] ];
  append (name "ctu_table");
  append (new (Spacer 1 (6*mm)));

  (* Example Signature Techniques table *)
  append (paragraph (Lit "Example Signature Techniques") "h2");
  assign "tech_table" (table tech_table_data [50*mm; 70*mm; 35*mm] None "CENTER");
  setStyle "tech_table" [
    cmd "BACKGROUND" (0, 0)%Z (-1, 0)%Z [AColor ACCENT_CRIMSON];
    cmd "TEXTCOLOR" (0, 0)%Z (-1, -1)%Z [AColor TEXT_LIGHT];
    cmd "GRID" (0, 0)%Z (-1, -1)%Z [ANum 0.25; AColor gray];
    cmd "FONTNAME" (0, 0)%Z (-1, -1)%Z [AStr "SourceSans"];
    cmd "FONTSIZE" (0, 0)%Z (-1, -1)%Z [ANum 9] ];
  append (name "tech_table");
  append (new PageBreak);

  (* Sample Character Sheets *)
  append (paragraph (Lit "Appendix: Sample Characters") "h1");
  append (paragraph (Lit "<b>Yuji Itadori (Sample PC)</b>") "h2");
  append (paragraph (Lit yuji_text) "normal");
  append (new (Spacer 1 (6*mm)));

  append (paragraph (Lit "<b>Satoru Gojo (NPC/Legendary Template)</b>") "h2");
  append (paragraph (Lit gojo_text) "normal");
  append (new PageBreak);

  (* Starter Module (Level 1-3 one-shot) *)
  append (paragraph (Lit "Starter Module: The Haunting of Higan Shrine") "h1");
  append (paragraph (Lit "Adventure Summary") "h2");
  append (paragraph (Lit adv_text) "normal");
  append (new (Spacer 1 (6*mm)));
  append (new PageBreak);

  (* Bestiary sample *)
  append (paragraph (Lit "Bestiary (Sample Entries)") "h1");
  append (paragraph (Lit "Grade 4: Hollowchild") "h2");
  append (paragraph (Lit hc_text) "normal");
  append (new PageBreak);

  (* Index placeholder *)
  append (paragraph (Lit "Index") "h1");
  append (paragraph (Lit index_text) "normal")
]%string.

(** ** The build and the whole script *)

(** The flowables a list of references denotes in the current heap. *)
Definition deref (refs : list nat) : ST world (list Flowable) :=
  fun w => match mapM (fun r => heap w !! r) refs with
           | Some fs => (inr fs, w)
           | None => (inl IndexError, w)
           end.

(** [open(filename, 'wb').write(...)] *)
Definition write_file (path : string) (f : file) : ST world unit :=
  modify (fun w => {| files := <[ path := f ]> (files w); fonts := fonts w;
                      heap := heap w; globals := globals w;
                      elements := elements w; stdout := stdout w |}).

Section Script.

Variable height_of : Flowable -> Q.

(** Modelled from the spec: [d.build(flowables, onFirstPage=...,
    onLaterPages=...)], the engine's entry point (not in the sources).  It
    lays the flowables out as the references denote them now; a layout
    error propagates, and the output file is written only once the layout
    is complete. *)
Definition build (d : SimpleDocTemplate) (flowables : list nat)
    (onFirstPage onLaterPages : SimpleDocTemplate -> ST canvas unit) : ST world unit :=
  let* fs := deref flowables in
  match layout height_of d onFirstPage onLaterPages fs with
  | inl e => raise e
  | inr result => write_file (filename d) (Pdf result)
  end.

(** The script from its first line to its last.  When the engine calls
    [on_page], the font registry it finds is the one of the world at the
    build. *)
Definition main : ST world unit :=
  register_fonts >>
  exec content >>
  (let* registered := (fun w => (inr (fonts w), w)) in
   let* els := (fun w => (inr (elements w), w)) in
   build doc els (on_page registered) (on_page registered)) >>
  print ("PDF generation script run complete. Output file: " ++ OUT_PDF)%string.

End Script.

(** ** Observing a run *)

(** The states a run of module-level statements goes through: before the
    first statement, then after each one.  A statement that raises ends the
    run. *)
Fixpoint trace {S} (stmts : list (ST S unit)) (s : S) : list S :=
  s :: match stmts with
       | [] => []
       | stmt :: rest =>
           match stmt s with
           | (inr _, s') => trace rest s'
           | (inl _, s') => [s']
           end
       end.

(** The world right after the font registration block, whatever it did:
    only [files] and [fonts] can differ from one run to the next. *)
Definition fresh (fl : gmap string file) (fn : gset string) : world :=
  {| files := fl; fonts := fn; heap := []; globals := ∅; elements := [];
     stdout := [] |}.

(** The world when [doc.build] is reached. *)
Definition at_build (fl : gmap string file) (fn : gset string) : world :=
  snd (exec content (fresh fl fn)).

(** The two font names the styles use. *)
Definition needed_fonts : gset string := {[ "SourceSans"; "SourceSans-Bold" ]}.

(** What the content statements leave behind when both fonts are
    registered, evaluated once: the objects, the names bound to them and the
    list [elements]. *)
Definition built_heap : list Flowable :=
  Eval vm_compute in heap (at_build ∅ needed_fonts).

Definition built_globals : gmap string nat :=
  Eval vm_compute in globals (at_build ∅ needed_fonts).

Definition built_elements : list nat :=
  Eval vm_compute in elements (at_build ∅ needed_fonts).

(** The flowables of the content sequence as [doc.build] receives them. *)
Definition story : list Flowable :=
  Eval vm_compute in omap (fun r => built_heap !! r) built_elements.

(** The font names a flowable asks the engine for. *)
Definition font_args (args : list style_arg) : list string :=
  omap (fun a => match a with AStr s => Some s | _ => None end) args.

Definition fonts_used (f : Flowable) : list string :=
  match f with
  | Paragraph _ st => [style_fontName st]
  | Table _ _ _ _ ts =>
      flat_map (fun c => if String.eqb (cmd_op c) "FONTNAME"
                         then font_args (cmd_args c) else []) ts
  | _ => []
  end.

(** The font a mark is painted with, for marks that show text. *)
Definition mark_font (m : mark) : option string :=
  match m with
  | MRightString _ _ _ g => Some (fontName g)
  | _ => None
  end.

(** ** Geometry of marks and boxes *)

(** The vertical extent (lowest, highest) a mark can touch: a rectangle
    spans its height, a line its end points widened by half the line width,
    and a string at most one font size below and above its baseline. *)
Definition y_extent (m : mark) : Q * Q :=
  match m with
  | MRect _ y _ h _ _ _ => (Qmin y (y + h), Qmax y (y + h))
  | MLine _ y1 _ y2 g =>
      (Qmin y1 y2 - lineWidth g / 2, Qmax y1 y2 + lineWidth g / 2)
  | MRightString _ y _ g => (y - fontSize g, y + fontSize g)
  end.

(** A laid-out flowable and a mark share no height on the page. *)
Definition clear_of (b : box) (m : mark) : Prop :=
  snd (y_extent m) < bottom b \/ top b < fst (y_extent m).

(** The text of a page's number stamp: the last string the decorator drew. *)
Definition mark_text (m : mark) : option string :=
  match m with
  | MRightString _ _ t _ => Some t
  | _ => None
  end.

Definition stamp_text (p : page) : option string :=
  last (omap mark_text (decoration p)).

(** ** Immutability, as the specification words it and as the
    script has it *)

(** "No entity is mutated after creation": whatever an object is in some
    state of the run, it still is when the build consumes it. *)
Definition immutable_once_constructed (run : list world) (final : world) : Prop :=
  forall (n r : nat) (w : world) (f : Flowable),
    run !! n = Some w -> heap w !! r = Some f -> heap final !! r = Some f.

(** What the script keeps: an object no longer changes once it is in
    [elements]. *)
Definition immutable_once_appended (run : list world) (final : world) : Prop :=
  forall (n r : nat) (w : world),
    run !! n = Some w -> r ∈ elements w -> heap w !! r = heap final !! r.

(** What [on_page] paints below the page number on any page: the obsidian
    sheet, then the two violet accent lines. *)
Definition background : mark :=
  MRect 0 0 PAGE_WIDTH PAGE_HEIGHT false true
    {| fillColor := OBSIDIAN; strokeColor := black; lineWidth := 1;
       fontName := "Helvetica"; fontSize := 12 |}.

Definition accent_lines : list mark :=
  let g := {| fillColor := ACCENT_VIOLET; strokeColor := ACCENT_VIOLET;
              lineWidth := 0.8; fontName := "Helvetica"; fontSize := 12 |} in
  [ MLine (20*mm) (PAGE_HEIGHT - 18*mm) (PAGE_WIDTH - 20*mm) (PAGE_HEIGHT - 18*mm) g;
    MLine (20*mm) (18*mm) (PAGE_WIDTH - 20*mm) (18*mm) g ].

(** The stamp of page [k]: right-aligned at 20 mm from the right edge, 12 mm
    above the bottom edge, in 9 pt SourceSans. *)
Definition stamp (k : nat) : mark :=
  MRightString (PAGE_WIDTH - 20*mm) (12*mm) ("Page " ++ str k)
    {| fillColor := TEXT_LIGHT; strokeColor := ACCENT_VIOLET;
       lineWidth := 0.8; fontName := "SourceSans"; fontSize := 9 |}.

(** ** Sample environments *)

(** A filesystem that has the three DejaVu files. *)
Definition fonts_installed : gmap string file :=
  list_to_map [
    ("/usr/share/fonts/truetype/dejavu/DejaVuSans.ttf"%string, TrueType);
    ("/usr/share/fonts/truetype/dejavu/DejaVuSans-Bold.ttf"%string, TrueType);
    ("/usr/share/fonts/truetype/dejavu/DejaVuSerif.ttf"%string, TrueType) ].

(** Heights for trying the engine out: a spacer has its own height, a
    paragraph one line of its style, a table 18 pt a row. *)
Definition one_line_heights (f : Flowable) : Q :=
  match f with
  | Spacer _ h => h
  | Paragraph _ st => leading st
  | Table data _ _ _ _ => 18 * inject_Z (Z.of_nat (length data))
  | PageBreak => 0
  end.

(** The same, with every paragraph 400 pt tall, so that pages overflow. *)
Definition tall_heights (f : Flowable) : Q :=
  match f with
  | Paragraph _ _ => 400
  | _ => one_line_heights f
  end.

(** The document a run of the whole script leaves at [OUT_PDF], if any. *)
Definition output (run : (exn + unit) * world) : option document :=
  match run with
  | (inr _, w) =>
      match files w !! OUT_PDF with
      | Some (Pdf result) => Some result
      | _ => None
      end
  | (inl _, _) => None
  end.

(** The documents the script leaves on a machine with the fonts, under the
    one-line heights (nine pages) and under the tall ones (28 pages). *)
Definition no_document : document := {| pages := []; automatic_breaks := 0 |}.

Definition sample_document : document :=
  default no_document (output (main one_line_heights (boot fonts_installed))).

Definition overflowing_document : document :=
  default no_document (output (main tall_heights (boot fonts_installed))).

(** A world whose only flowable is a one-cell table 171 mm wide, with a
    document from an earlier run still on disk. *)
Definition wide_table : Flowable :=
  Table [[Str "x"]] [171 * mm] None "CENTER" [].

Definition wide_world : world :=
  {| files := {[ OUT_PDF := Pdf no_document ]}; fonts := standardFonts;
     heap := [wide_table]; globals := ∅; elements := [0%nat]; stdout := [] |}.

(** ** Decidable equality of flowables, to compare states of a run *)

#[global] Instance Q_eq_dec : EqDecision Q.
Proof. solve_decision. Defined.
#[global] Instance color_eq_dec : EqDecision color.
Proof. solve_decision. Defined.
#[global] Instance alignment_eq_dec : EqDecision alignment.
Proof. solve_decision. Defined.
#[global] Instance ParagraphStyle_eq_dec : EqDecision ParagraphStyle.
Proof. solve_decision. Defined.
#[global] Instance text_eq_dec : EqDecision text.
Proof. solve_decision. Defined.
#[global] Instance cell_eq_dec : EqDecision cell.
Proof. solve_decision. Defined.
#[global] Instance style_arg_eq_dec : EqDecision style_arg.
Proof. solve_decision. Defined.
#[global] Instance style_cmd_eq_dec : EqDecision style_cmd.
Proof. solve_decision. Defined.
#[global] Instance Flowable_eq_dec : EqDecision Flowable.
Proof. solve_decision. Defined.

(** ** Reading the flowing pass *)

(** The pages of a flowing state, the one being filled first. *)
Definition sheets (st : flow_state) : list (list box) :=
  current st :: finished st.

(** What one successful step of the pass is: an explicit break, a flowable
    put on the current page, or an automatic break with the flowable heading
    the next page. *)
Inductive step_kind (height_of : Flowable -> Q) (d : SimpleDocTemplate)
    (i : nat) (f : Flowable) (st st' : flow_state) : Prop :=
  | explicit_break :
      f = PageBreak -> st' = new_page d false st ->
      step_kind height_of d i f st st'
  | same_page :
      is_PageBreak f = false -> too_wide d f = false ->
      height_of f <= cursor st - frame_bottom d ->
      st' = put_box i f (height_of f) st ->
      step_kind height_of d i f st st'
  | automatic_break :
      is_PageBreak f = false -> too_wide d f = false ->
      height_of f <= frame_top d - frame_bottom d ->
      st' = put_box i f (height_of f) (new_page d true st) ->
      step_kind height_of d i f st st'.

(** Every laid-out flowable lies inside the frame, right side up. *)
Definition in_frame (d : SimpleDocTemplate) (b : box) : Prop :=
  frame_bottom d <= bottom b /\ bottom b <= top b /\ top b <= frame_top d.

(** The invariant of the flowing pass: the cursor is inside the frame and
    so is everything laid out so far. *)
Definition well_placed (d : SimpleDocTemplate) (st : flow_state) : Prop :=
  frame_bottom d <= cursor st /\ cursor st <= frame_top d /\
  Forall (Forall (in_frame d)) (sheets st).

Local Close Scope Q_scope.

(** A page of a flowing state lists its flowables latest first. *)
Definition descending (pg : list box) : Prop :=
  StronglySorted (fun a b => index b < index a) pg.

(** Before the flowable of index [i] is placed, every page is in order and
    holds earlier flowables only. *)
Definition ordered (i : nat) (st : flow_state) : Prop :=
  Forall (fun pg => descending pg /\ Forall (fun b => index b < i) pg) (sheets st).

(** ** Further names for the properties of the script *)

(** The three font files of lines 31-33. *)
Definition DejaVuSans_ttf : string := "/usr/share/fonts/truetype/dejavu/DejaVuSans.ttf".
Definition DejaVuSans_Bold_ttf : string := "/usr/share/fonts/truetype/dejavu/DejaVuSans-Bold.ttf".
Definition DejaVuSerif_ttf : string := "/usr/share/fonts/truetype/dejavu/DejaVuSerif.ttf".

(** A filesystem on which only the regular face is missing, and one on
    which only the serif face is. *)
Definition regular_missing : gmap string file :=
  {[ DejaVuSans_Bold_ttf := TrueType; DejaVuSerif_ttf := TrueType ]}.

Definition serif_missing : gmap string file :=
  {[ DejaVuSans_ttf := TrueType; DejaVuSans_Bold_ttf := TrueType ]}.

(** The graphics state [header_footer] draws the accent lines in, on a
    canvas whose font is [name] at [size], and the one it draws the page
    number in and leaves behind. *)
Definition line_state (name : string) (size : Q) : gstate :=
  {| fillColor := ACCENT_VIOLET; strokeColor := ACCENT_VIOLET; lineWidth := 0.8%Q;
     fontName := name; fontSize := size |}.

Definition stamp_state : gstate :=
  {| fillColor := TEXT_LIGHT; strokeColor := ACCENT_VIOLET; lineWidth := 0.8%Q;
     fontName := "SourceSans"; fontSize := 9%Q |}.

(** The text of the last string on a canvas. *)
Definition last_text (c : canvas) : option string :=
  last (omap mark_text (marks c)).

(** The style a flowable is set in, for paragraphs. *)
Definition style_of (f : Flowable) : option string :=
  match f with
  | Paragraph _ st => Some (style_name st)
  | _ => None
  end.

(** The flowables a table holds in its cells, by reference. *)
Definition cell_refs (f : Flowable) : list nat :=
  match f with
  | Table data _ _ _ _ =>
      omap (fun c => match c with Obj r => Some r | Str _ => None end) (concat data)
  | _ => []
  end.

(** A table whose rows all have one cell per column width, whose row
    heights, when given, are one per row, and whose widths are positive. *)
Definition rectangular (f : Flowable) : Prop :=
  match f with
  | Table data colWidths rowHeights _ _ =>
      data <> [] /\
      Forall (fun row => length row = length colWidths) data /\
      Forall (fun w => (0 < w)%Q) colWidths /\
      match rowHeights with
      | Some hs => length hs = length data
      | None => True
      end
  | _ => True
  end.

(** Every reference a world holds points to an object of its heap: those in
    [elements], those bound to names, and those in table cells. *)
Definition references_valid (w : world) : Prop :=
  Forall (fun r => r < length (heap w)) (elements w) /\
  map_Forall (fun _ r => r < length (heap w)) (globals w) /\
  Forall (fun f => Forall (fun r => r < length (heap w)) (cell_refs f)) (heap w).

(** What a mark looks like on paper: of the graphics state it was painted
    in, a line shows the stroke colour and the line width, a string the
    font, its size and the fill colour, and a rectangle the stroke settings
    if it is stroked and the fill colour if it is filled. *)
Inductive look : Type :=
  | LRect (x y width height : Q) (stroke : option (color * Q)) (fill : option color)
  | LLine (x1 y1 x2 y2 : Q) (stroke : color) (width : Q)
  | LString (x y : Q) (text font : string) (size : Q) (fill : color).

Definition appearance (m : mark) : look :=
  match m with
  | MRect x y w h stroke fill g =>
      LRect x y w h (if stroke then Some (strokeColor g, lineWidth g) else None)
                    (if fill then Some (fillColor g) else None)
  | MLine x1 y1 x2 y2 g => LLine x1 y1 x2 y2 (strokeColor g) (lineWidth g)
  | MRightString x y t g => LString x y t (fontName g) (fontSize g) (fillColor g)
  end.

(** The marks a callback added to a canvas that had [before] on it. *)
Definition added (before : canvas) (after : canvas) : list mark :=
  drop (length (marks before)) (marks after).

(** ** The content statements and the font registry *)

(** A world with another font registry. *)
Definition with_fonts (fn : gset string) (w : world) : world :=
  {| files := files w; fonts := fn; heap := heap w; globals := globals w;
     elements := elements w; stdout := stdout w |}.

(** Two registries that agree on the two font names the styles use. *)
Definition agree (fn fn' : gset string) : Prop :=
  ("SourceSans"%string ∈ fn <-> "SourceSans"%string ∈ fn') /\
  ("SourceSans-Bold"%string ∈ fn <-> "SourceSans-Bold"%string ∈ fn').

(** A computation that reads the registry only to ask for those two names,
    and never changes it: run on a world whose registry was replaced by one
    that agrees, it gives the same result and the same world, but for the
    registry. *)
Definition font_blind {A} (m : ST world A) : Prop :=
  forall w fn, agree (fonts w) fn ->
    m (with_fonts fn w) = (fst (m w), with_fonts fn (snd (m w))) /\
    fonts (snd (m w)) = fonts w.

(** The registry that has, of the two names, those that [fn] has, and
    nothing else. *)
Definition needed_of (fn : gset string) : gset string :=
  (if decide ("SourceSans"%string ∈ fn) then {[ "SourceSans"%string ]} else ∅) ∪
  (if decide ("SourceSans-Bold"%string ∈ fn) then {[ "SourceSans-Bold"%string ]} else ∅).

(** * Properties *)

(** ** The monad and the decorator *)

Lemma exec_cons {S} (stmt : ST S unit) (rest : list (ST S unit)) (s : S) :
  exec (stmt :: rest) s =
  match stmt s with
  | (inl e, s') => (inl e, s')
  | (inr _, s') => exec rest s'
  end.
Proof. reflexivity. Qed.

(** The last state of the trace is the state [exec] ends in. *)
Lemma trace_last {S} (stmts : list (ST S unit)) (s : S) :
  last (trace stmts s) = Some (snd (exec stmts s)).
Proof.
  revert s. induction stmts as [|stmt rest IH]; intros s; [reflexivity|].
  rewrite exec_cons. cbn [trace].
  destruct (stmt s) as [[e|[]] s'] eqn:E; [reflexivity|].
  specialize (IH s'). destruct (trace rest s') as [|w ws] eqn:T.
  - destruct rest; discriminate.
  - exact IH.
Qed.

(** Stepping through the decorator without touching the arithmetic. *)
Ltac run_canvas :=
  cbv [on_page header_footer bind modify set_gs paint saveState restoreState
       setFillColor setStrokeColor setLineWidth setFont getPageNumber
       line rect drawRightString blank raise
       gs stateStack pageNumber marks
       fillColor strokeColor lineWidth fontName fontSize].

(** What [header_footer] does to any canvas when SourceSans is registered,
    and what it does when it is not: the two lines are drawn, then
    [setFont] raises. *)
Lemma header_footer_runs (fn : gset string) (d : SimpleDocTemplate) (c : canvas) :
  "SourceSans"%string ∈ fn ->
  header_footer fn d c =
  (inr tt,
   {| gs := stamp_state; stateStack := stateStack c; pageNumber := pageNumber c;
      marks := marks c ++
        [ MLine (20 * mm)%Q (PAGE_HEIGHT - 18 * mm)%Q (PAGE_WIDTH - 20 * mm)%Q
                (PAGE_HEIGHT - 18 * mm)%Q
                (line_state (fontName (gs c)) (fontSize (gs c)));
          MLine (20 * mm)%Q (18 * mm)%Q (PAGE_WIDTH - 20 * mm)%Q (18 * mm)%Q
                (line_state (fontName (gs c)) (fontSize (gs c)));
          MRightString (PAGE_WIDTH - 20 * mm)%Q (12 * mm)%Q
                       ("Page " ++ str (pageNumber c)) stamp_state ] |}).
Proof.
  intros Hreg. destruct c as [g stack k ms]. run_canvas.
  destruct (decide ("SourceSans"%string ∈ fn)); [|contradiction].
  run_canvas. unfold stamp_state, line_state.
  rewrite <- !app_assoc. reflexivity.
Qed.

Lemma header_footer_fails (fn : gset string) (d : SimpleDocTemplate) (c : canvas) :
  "SourceSans"%string ∉ fn ->
  header_footer fn d c =
  (inl (KeyError "SourceSans"),
   {| gs := line_state (fontName (gs c)) (fontSize (gs c));
      stateStack := stateStack c; pageNumber := pageNumber c;
      marks := marks c ++
        [ MLine (20 * mm)%Q (PAGE_HEIGHT - 18 * mm)%Q (PAGE_WIDTH - 20 * mm)%Q
                (PAGE_HEIGHT - 18 * mm)%Q
                (line_state (fontName (gs c)) (fontSize (gs c)));
          MLine (20 * mm)%Q (18 * mm)%Q (PAGE_WIDTH - 20 * mm)%Q (18 * mm)%Q
                (line_state (fontName (gs c)) (fontSize (gs c))) ] |}).
Proof.
  intros Hreg. destruct c as [g stack k ms]. run_canvas.
  destruct (decide ("SourceSans"%string ∈ fn)); [contradiction|].
  run_canvas. unfold line_state.
  rewrite <- !app_assoc. reflexivity.
Qed.

(** The same for [on_page], which paints the background first. *)
Lemma on_page_runs (fn : gset string) (d : SimpleDocTemplate) (c : canvas) :
  "SourceSans"%string ∈ fn ->
  on_page fn d c =
  (inr tt,
   {| gs := stamp_state; stateStack := stateStack c; pageNumber := pageNumber c;
      marks := marks c ++
        [ MRect 0 0 PAGE_WIDTH PAGE_HEIGHT false true
                {| fillColor := OBSIDIAN; strokeColor := strokeColor (gs c);
                   lineWidth := lineWidth (gs c); fontName := fontName (gs c);
                   fontSize := fontSize (gs c) |};
          MLine (20 * mm)%Q (PAGE_HEIGHT - 18 * mm)%Q (PAGE_WIDTH - 20 * mm)%Q
                (PAGE_HEIGHT - 18 * mm)%Q
                (line_state (fontName (gs c)) (fontSize (gs c)));
          MLine (20 * mm)%Q (18 * mm)%Q (PAGE_WIDTH - 20 * mm)%Q (18 * mm)%Q
                (line_state (fontName (gs c)) (fontSize (gs c)));
          MRightString (PAGE_WIDTH - 20 * mm)%Q (12 * mm)%Q
                       ("Page " ++ str (pageNumber c)) stamp_state ] |}).
Proof.
  intros Hreg. destruct c as [g stack k ms]. run_canvas.
  destruct (decide ("SourceSans"%string ∈ fn)); [|contradiction].
  run_canvas. unfold stamp_state, line_state.
  rewrite <- !app_assoc. reflexivity.
Qed.

Lemma on_page_fails (fn : gset string) (d : SimpleDocTemplate) (c : canvas) :
  "SourceSans"%string ∉ fn ->
  on_page fn d c =
  (inl (KeyError "SourceSans"),
   {| gs := line_state (fontName (gs c)) (fontSize (gs c));
      stateStack := stateStack c; pageNumber := pageNumber c;
      marks := marks c ++
        [ MRect 0 0 PAGE_WIDTH PAGE_HEIGHT false true
                {| fillColor := OBSIDIAN; strokeColor := strokeColor (gs c);
                   lineWidth := lineWidth (gs c); fontName := fontName (gs c);
                   fontSize := fontSize (gs c) |};
          MLine (20 * mm)%Q (PAGE_HEIGHT - 18 * mm)%Q (PAGE_WIDTH - 20 * mm)%Q
                (PAGE_HEIGHT - 18 * mm)%Q
                (line_state (fontName (gs c)) (fontSize (gs c)));
          MLine (20 * mm)%Q (18 * mm)%Q (PAGE_WIDTH - 20 * mm)%Q (18 * mm)%Q
                (line_state (fontName (gs c)) (fontSize (gs c))) ] |}).
Proof.
  intros Hreg. destruct c as [g stack k ms]. run_canvas.
  destruct (decide ("SourceSans"%string ∈ fn)); [contradiction|].
  run_canvas. unfold line_state.
  rewrite <- !app_assoc. reflexivity.
Qed.

(** On the fresh canvas of page [k], with SourceSans registered, the
    decorator paints exactly: the background, the two accent lines, the
    stamp of [k]. *)
Lemma on_page_paints (fn : gset string) (d : SimpleDocTemplate) (k : nat) :
  "SourceSans"%string ∈ fn ->
  exists c, on_page fn d (blank k) = (inr tt, c) /\
            marks c = background :: accent_lines ++ [stamp k].
Proof.
  intros Hreg. eexists. split; [apply (on_page_runs fn d (blank k) Hreg)|].
  reflexivity.
Qed.

(** ** The flowing pass *)

Section FlowFacts.

Variable height_of : Flowable -> Q.
Variable d : SimpleDocTemplate.

Lemma place_inr i f st st' :
  place height_of d i f st = inr st' -> step_kind height_of d i f st st'.
Proof.
  unfold place. intros H.
  destruct (is_PageBreak f) eqn:Hpb.
  - destruct f; try discriminate. inversion H. now apply explicit_break.
  - destruct (too_wide d f) eqn:Hw; [discriminate|].
    destruct (Qle_bool (height_of f) (cursor st - frame_bottom d)) eqn:Hfit.
    + inversion H. apply same_page; auto. now apply Qle_bool_iff.
    + destruct (Qle_bool (height_of f) (frame_top d - frame_bottom d)) eqn:Hpage;
        [|discriminate].
      inversion H. apply automatic_break; auto. now apply Qle_bool_iff.
Qed.

Lemma flow_app i fs1 fs2 st :
  flow height_of d i (fs1 ++ fs2) st =
  match flow height_of d i fs1 st with
  | inl e => inl e
  | inr st1 => flow height_of d (i + length fs1) fs2 st1
  end.
Proof.
  revert i st. induction fs1 as [|f fs1 IH]; intros i st; cbn.
  - now rewrite Nat.add_0_r.
  - destruct (place height_of d i f st) as [e|st1]; [reflexivity|].
    rewrite IH. now rewrite Nat.add_succ_r.
Qed.

(** Every page the pass adds or extends receives only flowables of the
    part of the sequence it was given; the pages closed before stay. *)
Lemma flow_grows i fs st st' :
  flow height_of d i fs st = inr st' ->
  exists newer extra,
    sheets st' = newer ++ (extra ++ current st) :: finished st /\
    Forall (Forall (fun b => i <= index b < i + length fs)) (extra :: newer).
Proof.
  revert i st. induction fs as [|f fs IH]; intros i st H; cbn in H.
  - inversion H. exists [], []. split; [reflexivity|]. repeat constructor.
  - destruct (place height_of d i f st) as [e|st1] eqn:Hp; [discriminate|].
    destruct (IH _ _ H) as (newer & extra & Hs & Hall).
    assert (Hw : Forall (Forall (fun b => i <= index b < i + length (f :: fs)))
                   (extra :: newer)).
    { eapply Forall_impl; [exact Hall|]. intros pg Hpg.
      eapply Forall_impl; [exact Hpg|]. cbn. intros b Hb. lia. }
    apply place_inr in Hp. destruct Hp as [_ ->|_ _ _ ->|_ _ _ ->]; cbn in Hs.
    + exists (newer ++ [extra]), []. split.
      * rewrite Hs, <- app_assoc, app_nil_r. reflexivity.
      * apply Forall_cons in Hw as [He Hn]. constructor; [constructor|].
        apply Forall_app. split; [exact Hn|]. constructor; [exact He|constructor].
    + exists newer, (extra ++ [ {| index := i; item := f; top := cursor st;
                                   bottom := (cursor st - height_of f)%Q |} ]).
      split.
      * rewrite Hs, <- app_assoc. reflexivity.
      * apply Forall_cons in Hw as [He Hn]. constructor; [|exact Hn].
        apply Forall_app. split; [exact He|]. constructor; [cbn; lia|constructor].
    + exists (newer ++ [extra ++ [ {| index := i; item := f; top := frame_top d;
                                     bottom := (frame_top d - height_of f)%Q |} ]]), [].
      split.
      * rewrite Hs, <- app_assoc. reflexivity.
      * apply Forall_cons in Hw as [He Hn]. constructor; [constructor|].
        apply Forall_app. split; [exact Hn|]. constructor; [|constructor].
        apply Forall_app. split; [exact He|]. constructor; [cbn; lia|constructor].
Qed.

(** Pages closed = automatic breaks + explicit breaks. *)
Lemma flow_counts i fs st st' :
  flow height_of d i fs st = inr st' ->
  length (finished st') + breaks st =
  length (finished st) + breaks st' + length (filter (fun f => is_PageBreak f = true) fs).
Proof.
  revert i st. induction fs as [|f fs IH]; intros i st H; cbn in H.
  - inversion H. cbn. lia.
  - destruct (place height_of d i f st) as [e|st1] eqn:Hp; [discriminate|].
    specialize (IH _ _ H). apply place_inr in Hp.
    destruct Hp as [-> ->|Hf _ _ ->|Hf _ _ ->].
    + rewrite filter_cons_True by reflexivity. cbn in *. lia.
    + rewrite filter_cons_False by (rewrite Hf; discriminate). cbn in *. lia.
    + rewrite filter_cons_False by (rewrite Hf; discriminate). cbn in *. lia.
Qed.

(** A table wider than the usable width stops the pass with a layout
    error, whatever else the sequence holds. *)
Lemma flow_too_wide i fs st :
  Exists (fun f => too_wide d f = true) fs ->
  exists msg, flow height_of d i fs st = inl (LayoutError msg).
Proof.
  intros Hex. revert i st. induction Hex as [f fs Hf|f fs _ IH]; intros i st; cbn.
  - unfold place.
    assert (is_PageBreak f = false) as -> by (destruct f; cbn in *; congruence).
    rewrite Hf. eauto.
  - destruct (place height_of d i f st) as [e|st1] eqn:Hp; [|apply IH].
    unfold place in Hp.
    destruct (is_PageBreak f); [discriminate|].
    destruct (too_wide d f); [inversion Hp; eauto|].
    destruct (Qle_bool _ _); [discriminate|].
    destruct (Qle_bool _ _); [discriminate|]. inversion Hp; eauto.
Qed.

(** Pages keep their flowables in the order of the sequence. *)
Lemma place_ordered i f st st' :
  ordered i st -> place height_of d i f st = inr st' -> ordered (S i) st'.
Proof.
  intros Hord Hp. apply place_inr in Hp.
  assert (Hweak : Forall (fun pg => descending pg /\
                                    Forall (fun b => index b < S i) pg) (sheets st)).
  { eapply Forall_impl; [exact Hord|]. intros pg [Hd Hlt]. split; [exact Hd|].
    eapply Forall_impl; [exact Hlt|]. cbn. lia. }
  apply Forall_cons in Hord as [[Hdc Hltc] _].
  destruct Hp as [_ ->|_ _ _ ->|_ _ _ ->]; unfold ordered, sheets; cbn.
  - constructor; [|exact Hweak]. split; constructor.
  - apply Forall_cons in Hweak as [[_ Hc] Hf]. constructor; [|exact Hf].
    split.
    + constructor; [exact Hdc|]. exact Hltc.
    + constructor; [cbn; lia|exact Hc].
  - constructor; [|exact Hweak]. split.
    + repeat constructor.
    + constructor; [cbn; lia|constructor].
Qed.

Lemma flow_ordered i fs st st' :
  ordered i st -> flow height_of d i fs st = inr st' -> ordered (i + length fs) st'.
Proof.
  revert i st. induction fs as [|f fs IH]; intros i st Hst H; cbn in H.
  - inversion H; subst. now rewrite Nat.add_0_r.
  - destruct (place height_of d i f st) as [e|st1] eqn:Hp; [discriminate|].
    cbn [length]. rewrite Nat.add_succ_r.
    apply (IH (S i) st1); [|exact H]. eapply place_ordered; eauto.
Qed.

(** An explicit break splits the pages: every page holds flowables from
    before the break only, or from after it only; and the flowable right
    after the break is the oldest of its page. *)
Lemma flow_page_break pre post st :
  flow height_of d 0 (pre ++ PageBreak :: post) (start d) = inr st ->
  forall pg, pg ∈ sheets st ->
    (Forall (fun b => index b < length pre) pg \/
     Forall (fun b => length pre < index b) pg) /\
    (forall b, b ∈ pg -> index b = S (length pre) -> exists front, pg = front ++ [b]).
Proof.
  intros H pg Hpg.
  assert (Hord : ordered (0 + length (pre ++ PageBreak :: post)) st).
  { eapply flow_ordered; [|exact H]. repeat constructor. }
  rewrite flow_app in H.
  destruct (flow height_of d 0 pre (start d)) as [e|st1] eqn:H1; [discriminate|].
  cbn in H.
  apply flow_grows in H1 as (newer1 & extra1 & Hs1 & Hall1).
  apply flow_grows in H as (newer2 & extra2 & Hs2 & Hall2).
  cbn in Hs1, Hs2. rewrite app_nil_r in Hs1, Hs2.
  assert (Hside : Forall (fun b => index b < length pre) pg \/
                  Forall (fun b => length pre < index b) pg).
  { rewrite Hs2 in Hpg.
    change (newer2 ++ extra2 :: current st1 :: finished st1)
      with (newer2 ++ extra2 :: sheets st1) in Hpg.
    rewrite Hs1 in Hpg.
    apply elem_of_app in Hpg as [Hin|Hin].
    - right. apply Forall_cons in Hall2 as [_ Hn].
      rewrite Forall_forall in Hn. specialize (Hn _ Hin).
      eapply Forall_impl; [exact Hn|]. cbn. lia.
    - apply elem_of_cons in Hin as [->|Hin].
      + right. apply Forall_cons in Hall2 as [He _].
        eapply Forall_impl; [exact He|]. cbn. lia.
      + left. change (extra1 :: []) with ([extra1] ++ []) in Hin.
        assert (Hin' : pg ∈ extra1 :: newer1).
        { apply elem_of_app in Hin as [Hin|Hin]; [now right|].
          apply elem_of_cons in Hin as [->|Hin]; [now left|].
          now apply elem_of_nil in Hin. }
        rewrite Forall_forall in Hall1. specialize (Hall1 _ Hin').
        eapply Forall_impl; [exact Hall1|]. cbn. lia. }
  split; [exact Hside|].
  intros b Hb Hidx.
  destruct Hside as [Hbefore|Hafter].
  { rewrite Forall_forall in Hbefore. specialize (Hbefore _ Hb). lia. }
  unfold ordered in Hord. rewrite Forall_forall in Hord.
  destruct (Hord _ Hpg) as [Hdesc _].
  apply list_elem_of_split in Hb as (front & back & ->).
  exists front. f_equal.
  apply StronglySorted_app_1_r in Hdesc.
  apply StronglySorted_inv in Hdesc as [_ Hback].
  destruct back as [|b' back]; [reflexivity|exfalso].
  apply Forall_cons in Hback as [Hlt _].
  apply Forall_app in Hafter as [_ Hafter].
  apply Forall_cons in Hafter as [_ Hafter].
  apply Forall_cons in Hafter as [Hgt _]. lia.
Qed.

(** The pass goes through when no table is too wide and every flowable
    fits on a page of its own. *)
Lemma flow_succeeds i fs st :
  Forall (fun f => too_wide d f = false /\
                   (height_of f <= frame_top d - frame_bottom d)%Q) fs ->
  exists st', flow height_of d i fs st = inr st'.
Proof.
  intros Hfs. revert i st.
  induction Hfs as [|f fs [Hw Hh] _ IH]; intros i st; cbn.
  - eauto.
  - unfold place. rewrite Hw. apply Qle_bool_iff in Hh.
    destruct (is_PageBreak f); [apply IH|].
    destruct (Qle_bool (height_of f) (cursor st - frame_bottom d)); [apply IH|].
    rewrite Hh. apply IH.
Qed.

(** With heights that are not negative and a frame that is not upside
    down, the pass keeps everything inside the frame. *)
Section InFrame.

Hypothesis frame_ok : (frame_bottom d <= frame_top d)%Q.

Lemma start_well_placed : well_placed d (start d).
Proof.
  unfold well_placed, start, sheets; cbn. repeat split.
  - exact frame_ok.
  - apply Qle_refl.
  - repeat constructor.
Qed.

Lemma place_well_placed i f st st' :
  (0 <= height_of f)%Q ->
  well_placed d st -> place height_of d i f st = inr st' -> well_placed d st'.
Proof.
  intros Hh (Hlo & Hhi & Hall) Hp. apply place_inr in Hp.
  apply Forall_cons in Hall as [Hcur Hfin].
  destruct Hp as [_ ->|_ _ Hfit ->|_ _ Hfit ->];
    unfold well_placed, sheets, in_frame; cbn.
  - repeat split; [exact frame_ok|apply Qle_refl|].
    constructor; [constructor|]. constructor; assumption.
  - repeat split; [lra|lra|].
    constructor; [|exact Hfin].
    constructor; [|exact Hcur]. cbn. repeat split; lra.
  - repeat split; [lra|lra|].
    constructor; [|constructor; assumption].
    constructor; [|constructor]. cbn. repeat split; lra.
Qed.

Lemma flow_well_placed i fs st st' :
  Forall (fun f => (0 <= height_of f)%Q) fs ->
  well_placed d st -> flow height_of d i fs st = inr st' -> well_placed d st'.
Proof.
  intros Hfs. revert i st.
  induction Hfs as [|f fs Hf _ IH]; intros i st Hst H; cbn in H.
  - inversion H; subst; exact Hst.
  - destruct (place height_of d i f st) as [e|st1] eqn:Hp; [discriminate|].
    eapply IH; [|exact H]. eapply place_well_placed; eauto.
Qed.

End InFrame.

End FlowFacts.

(** ** Decoration and the build *)

Section BuildFacts.

Variable height_of : Flowable -> Q.
Variable d : SimpleDocTemplate.
Variables onFirstPage onLaterPages : SimpleDocTemplate -> ST canvas unit.

(** Page [j] of the decorated list is content [j], numbered from [k] on
    and decorated on its own fresh canvas by the callback of its rank. *)
Lemma decorate_from_lookup k contents ps :
  decorate_from d onFirstPage onLaterPages k contents = inr ps ->
  length ps = length contents /\
  forall j p, ps !! j = Some p ->
    number p = k + j /\ contents !! j = Some (body p) /\
    exists c, (if Nat.eqb (k + j) 1 then onFirstPage else onLaterPages)
                d (blank (k + j)) = (inr tt, c) /\
              decoration p = marks c.
Proof.
  revert k ps. induction contents as [|content rest IH]; intros k ps H; cbn in H.
  - inversion H. split; [reflexivity|]. intros j p Hj. discriminate.
  - destruct (decorate d onFirstPage onLaterPages k content) as [e|p0] eqn:Hd;
      [discriminate|].
    destruct (decorate_from d onFirstPage onLaterPages (S k) rest) as [e|ps'] eqn:Hr;
      [discriminate|].
    inversion H; subst ps. destruct (IH _ _ Hr) as [Hlen Hrest].
    split; [cbn; now rewrite Hlen|].
    intros [|j] p Hj; cbn in Hj.
    + inversion Hj; subst p0. rewrite Nat.add_0_r.
      unfold decorate in Hd.
      destruct ((if Nat.eqb k 1 then onFirstPage else onLaterPages) d (blank k))
        as [[e|[]] c] eqn:Hc; [discriminate|].
      inversion Hd; subst p; cbn. repeat split. exists c. now split.
    + destruct (Hrest _ _ Hj) as (Hn & Hb & Hc).
      rewrite Nat.add_succ_r. cbn in Hn, Hc. repeat split; assumption.
Qed.

(** A finished build has one page more than pages were closed. *)
Lemma layout_inr fs result :
  layout height_of d onFirstPage onLaterPages fs = inr result ->
  exists st, flow height_of d 0 fs (start d) = inr st /\
             decorate_from d onFirstPage onLaterPages 1 (bodies st) = inr (pages result) /\
             automatic_breaks result = breaks st.
Proof.
  unfold layout. intros H.
  destruct (flow height_of d 0 fs (start d)) as [e|st]; [discriminate|].
  destruct (decorate_from d onFirstPage onLaterPages 1 (bodies st)) as [e|ps] eqn:Hd;
    [discriminate|].
  inversion H; subst; cbn. exists st. repeat split. exact Hd.
Qed.

End BuildFacts.

(** ** The run of the script *)

Lemma bind_inr {S A B} (m : ST S A) (k : A -> ST S B) (s s' : S) (a : A) :
  m s = (inr a, s') -> bind m k s = k a s'.
Proof. unfold bind. now intros ->. Qed.

Lemma bind_inl {S A B} (m : ST S A) (k : A -> ST S B) (s s' : S) (e : exn) :
  m s = (inl e, s') -> bind m k s = (inl e, s').
Proof. unfold bind. now intros ->. Qed.

(** The registration block never raises: whatever the filesystem holds, the
    script goes on, with the standard fonts and those it could register,
    which are the first zero, one, two or three of its list. *)
Lemma register_fonts_boot (fs : gmap string file) :
  exists fn, register_fonts (boot fs) = (inr tt, fresh fs fn) /\
    (fn = standardFonts \/
     fn = {[ "SourceSans"%string ]} ∪ standardFonts \/
     fn = {[ "SourceSans-Bold"%string ]} ∪ ({[ "SourceSans"%string ]} ∪ standardFonts) \/
     fn = {[ "SourceSerif"%string ]} ∪
          ({[ "SourceSans-Bold"%string ]} ∪ ({[ "SourceSans"%string ]} ∪ standardFonts))).
Proof.
  unfold register_fonts, try_except, registerFont, TTFont, bind, modify, ret, boot, fresh;
    cbn [files fonts heap globals elements stdout].
  destruct (fs !! "/usr/share/fonts/truetype/dejavu/DejaVuSans.ttf"%string) as [[|]|];
    cbn [files fonts heap globals elements stdout];
    [|eexists; (split; [reflexivity|]); left; reflexivity..].
  destruct (fs !! "/usr/share/fonts/truetype/dejavu/DejaVuSans-Bold.ttf"%string) as [[|]|];
    cbn [files fonts heap globals elements stdout];
    [|eexists; (split; [reflexivity|]); right; left; reflexivity..].
  destruct (fs !! "/usr/share/fonts/truetype/dejavu/DejaVuSerif.ttf"%string) as [[|]|];
    cbn [files fonts heap globals elements stdout];
    eexists; (split; [reflexivity|]);
    [right; right; right; reflexivity|right; right; left; reflexivity..].
Qed.

(** *** The content statements read the registry for two names only *)

Lemma agree_refl (fn : gset string) : agree fn fn.
Proof. split; reflexivity. Qed.

(** Deciding a statement about sets that are written out. *)
Ltac by_computation := apply (bool_decide_unpack _); vm_compute; exact I.

Lemma agree_needed_of (fn : gset string) : agree (needed_of fn) fn.
Proof.
  unfold agree, needed_of.
  destruct (decide ("SourceSans"%string ∈ fn)) as [Hs|Hs];
    destruct (decide ("SourceSans-Bold"%string ∈ fn)) as [Hb|Hb];
    (split; split; intros H;
     [first [assumption | exfalso; revert H; by_computation]
     |first [contradiction | by_computation]
     |first [assumption | exfalso; revert H; by_computation]
     |first [contradiction | by_computation]]).
Qed.

(** The four registries [needed_of] can give. *)
Lemma needed_of_cases (fn : gset string) :
  (needed_of fn = {[ "SourceSans"%string ]} ∪ {[ "SourceSans-Bold"%string ]} /\
   "SourceSans"%string ∈ fn /\ "SourceSans-Bold"%string ∈ fn) \/
  (needed_of fn = {[ "SourceSans"%string ]} ∪ ∅ /\
   "SourceSans"%string ∈ fn /\ ("SourceSans-Bold"%string ∉ fn)) \/
  (needed_of fn = ∅ ∪ {[ "SourceSans-Bold"%string ]} /\
   ("SourceSans"%string ∉ fn) /\ "SourceSans-Bold"%string ∈ fn) \/
  (needed_of fn = ∅ ∪ ∅ /\
   ("SourceSans"%string ∉ fn) /\ ("SourceSans-Bold"%string ∉ fn)).
Proof.
  unfold needed_of.
  destruct (decide ("SourceSans"%string ∈ fn)) as [Hs|Hs];
    destruct (decide ("SourceSans-Bold"%string ∈ fn)) as [Hb|Hb]; tauto.
Qed.

(** Changing the registry of a world changes nothing else, twice the same
    is once, and a world already has its own. *)
Lemma with_fonts_fonts (w : world) : with_fonts (fonts w) w = w.
Proof. now destruct w. Qed.

Lemma fresh_with_fonts (fl : gmap string file) (fn fn' : gset string) :
  fresh fl fn = with_fonts fn (fresh fl fn').
Proof. reflexivity. Qed.

(** How blindness is built up. *)
Lemma font_blind_ret {A} (a : A) : font_blind (ret a).
Proof. intros w fn _. split; reflexivity. Qed.

Lemma font_blind_bind {A B} (m : ST world A) (k : A -> ST world B) :
  font_blind m -> (forall a, font_blind (k a)) -> font_blind (bind m k).
Proof.
  intros Hm Hk w fn Hagree. destruct (Hm w fn Hagree) as [Hrun Hkeep].
  unfold bind. rewrite Hrun. destruct (m w) as [[e|a] w1]; cbn [fst snd] in *.
  - split; [reflexivity|exact Hkeep].
  - rewrite <- Hkeep in Hagree. destruct (Hk a w1 fn Hagree) as [Hrun' Hkeep'].
    rewrite Hrun'. split; [reflexivity|]. now rewrite Hkeep'.
Qed.

Lemma font_blind_allocate (f : Flowable) : font_blind (allocate f).
Proof. intros w fn _. split; reflexivity. Qed.

(** The fonts of the style registry. *)
Lemma styles_fonts (key : string) (st : ParagraphStyle) :
  styles !! key = Some st ->
  style_fontName st = "SourceSans"%string \/ style_fontName st = "SourceSans-Bold"%string.
Proof.
  revert key st. apply map_Forall_to_list.
  set (l := map_to_list styles). vm_compute in l. subst l.
  repeat (constructor; [cbn; auto|]). constructor.
Qed.

Lemma font_blind_new_paragraph (t : text) (st : ParagraphStyle) :
  style_fontName st = "SourceSans"%string \/ style_fontName st = "SourceSans-Bold"%string ->
  font_blind (new (Paragraph t st)).
Proof.
  intros Hst w fn [Hsans Hbold]. cbn [new fonts with_fonts].
  assert (Hsame : style_fontName st ∈ fn <-> style_fontName st ∈ fonts w).
  { destruct Hst as [-> | ->]; symmetry; assumption. }
  destruct (decide (style_fontName st ∈ fn)) as [Hin|Hout];
    destruct (decide (style_fontName st ∈ fonts w)) as [Hin'|Hout'];
    try tauto; split; reflexivity.
Qed.

Lemma font_blind_paragraph (t : text) (key : string) : font_blind (paragraph t key).
Proof.
  unfold paragraph, styles_getitem.
  destruct (styles !! key) as [st|] eqn:Hkey.
  - intros w fn Hagree. unfold bind, ret.
    apply (font_blind_new_paragraph t st (styles_fonts _ _ Hkey) w fn Hagree).
  - intros w fn _. split; reflexivity.
Qed.

Lemma font_blind_table data colWidths rowHeights hAlign :
  font_blind (table data colWidths rowHeights hAlign).
Proof. apply font_blind_allocate. Qed.

Lemma font_blind_name (x : string) : font_blind (name x).
Proof.
  intros w fn _. unfold name. cbn [globals with_fonts].
  destruct (globals w !! x); split; reflexivity.
Qed.

Lemma font_blind_modify (f : world -> world) :
  (forall w fn, f (with_fonts fn w) = with_fonts fn (f w)) ->
  (forall w, fonts (f w) = fonts w) ->
  font_blind (modify f).
Proof.
  intros Hf Hkeep w fn _. unfold modify. cbn [fst snd].
  rewrite Hf. split; [reflexivity|apply Hkeep].
Qed.

Lemma font_blind_assign (x : string) (e : ST world nat) :
  font_blind e -> font_blind (assign x e).
Proof.
  intros He. unfold assign. apply font_blind_bind; [exact He|].
  intros r. apply font_blind_modify; reflexivity.
Qed.

Lemma font_blind_append (e : ST world nat) :
  font_blind e -> font_blind (append e).
Proof.
  intros He. unfold append. apply font_blind_bind; [exact He|].
  intros r. apply font_blind_modify; reflexivity.
Qed.

Lemma font_blind_setStyle (x : string) (cmds : list style_cmd) :
  font_blind (setStyle x cmds).
Proof.
  unfold setStyle. apply font_blind_bind; [apply font_blind_name|].
  intros r w fn _. cbn [heap with_fonts].
  destruct (heap w !! r) as [[]|]; split; reflexivity.
Qed.

Lemma font_blind_exec (stmts : list (ST world unit)) :
  Forall font_blind stmts -> font_blind (exec stmts).
Proof.
  induction 1 as [|stmt rest Hstmt _ IH]; [apply font_blind_ret|].
  cbn [exec fold_right]. apply font_blind_bind; [exact Hstmt|]. intros _. exact IH.
Qed.

(** The states of a run follow the registry too. *)
Lemma font_blind_trace (stmts : list (ST world unit)) (w : world) (fn : gset string) :
  Forall font_blind stmts -> agree (fonts w) fn ->
  trace stmts (with_fonts fn w) = with_fonts fn <$> trace stmts w.
Proof.
  intros Hall. revert w. induction Hall as [|stmt rest Hstmt _ IH]; intros w Hagree.
  - reflexivity.
  - cbn [trace]. destruct (Hstmt w fn Hagree) as [Hrun Hkeep]. rewrite Hrun.
    destruct (stmt w) as [[e|[]] w1]; cbn [fst snd fmap list_fmap] in *.
    + reflexivity.
    + rewrite IH; [reflexivity|]. now rewrite Hkeep.
Qed.

Create HintDb blind.
#[local] Hint Resolve font_blind_paragraph font_blind_table font_blind_name
  font_blind_allocate font_blind_assign font_blind_append font_blind_setStyle
  font_blind_bind : blind.

(** Every content statement is blind in this sense. *)
Lemma content_font_blind : Forall font_blind content.
Proof.
  unfold content.
  repeat (constructor; [solve [eauto with blind | apply font_blind_append, font_blind_allocate]|]).
  constructor.
Qed.

(** The content part of the run under any registry is the one under the
    registry cut down to the two names, but for the registry itself. *)
Lemma content_by_need (fl : gmap string file) (fn : gset string) :
  exec content (fresh fl fn) =
  (fst (exec content (fresh fl (needed_of fn))),
   with_fonts fn (snd (exec content (fresh fl (needed_of fn))))).
Proof.
  rewrite (fresh_with_fonts fl fn (needed_of fn)).
  apply (font_blind_exec content content_font_blind), agree_needed_of.
Qed.

Lemma trace_by_need (fl : gmap string file) (fn : gset string) :
  trace content (fresh fl fn) =
  with_fonts fn <$> trace content (fresh fl (needed_of fn)).
Proof.
  rewrite (fresh_with_fonts fl fn (needed_of fn)).
  apply font_blind_trace; [exact content_font_blind|apply agree_needed_of].
Qed.

Lemma at_build_by_need (fl : gmap string file) (fn : gset string) :
  at_build fl fn = with_fonts fn (at_build fl (needed_of fn)).
Proof. unfold at_build. now rewrite content_by_need. Qed.

(** With both fonts registered the content statements never raise, and
    what they build does not depend on the filesystem or on the other
    fonts. *)
Lemma content_runs (fl : gmap string file) (fn : gset string) :
  "SourceSans"%string ∈ fn -> "SourceSans-Bold"%string ∈ fn ->
  exec content (fresh fl fn) =
  (inr tt, {| files := fl; fonts := fn; heap := built_heap; globals := built_globals;
              elements := built_elements; stdout := [] |}).
Proof.
  intros Hs Hb. rewrite content_by_need.
  destruct (needed_of_cases fn) as [(-> & _)|[(_ & _ & ?)|[(_ & ? & _)|(_ & ? & _)]]];
    try contradiction.
  assert (Hrun : exec content (fresh fl ({[ "SourceSans"%string ]} ∪ {[ "SourceSans-Bold"%string ]})) =
                 (inr tt, {| files := fl;
                             fonts := {[ "SourceSans"%string ]} ∪ {[ "SourceSans-Bold"%string ]};
                             heap := built_heap; globals := built_globals;
                             elements := built_elements; stdout := [] |}))
    by (vm_compute; reflexivity).
  rewrite Hrun. reflexivity.
Qed.

Lemma at_build_eq (fl : gmap string file) (fn : gset string) :
  "SourceSans"%string ∈ fn -> "SourceSans-Bold"%string ∈ fn ->
  at_build fl fn =
  {| files := fl; fonts := fn; heap := built_heap; globals := built_globals;
     elements := built_elements; stdout := [] |}.
Proof. intros Hs Hb. unfold at_build. now rewrite content_runs. Qed.

(** Without one of them the content part stops at the first paragraph set in
    the missing font: at the title when SourceSans-Bold is missing, at the
    subtitle otherwise.  Nothing has been written or printed then. *)
Lemma content_stops (fl : gmap string file) (fn : gset string) :
  ~ ("SourceSans"%string ∈ fn /\ "SourceSans-Bold"%string ∈ fn) ->
  exists font,
    (font ∉ fn) /\
    exec content (fresh fl fn) = (inl (ValueError font), at_build fl fn) /\
    files (at_build fl fn) = fl /\ fonts (at_build fl fn) = fn /\
    stdout (at_build fl fn) = [] /\
    (font = "SourceSans-Bold"%string /\ length (heap (at_build fl fn)) = 1 \/
     font = "SourceSans"%string /\ length (heap (at_build fl fn)) = 3).
Proof.
  intros Hmiss. unfold at_build. rewrite content_by_need.
  destruct (needed_of_cases fn) as [(_ & Hs & Hb)|[(-> & Hs & Hb)|[(-> & Hs & Hb)|(-> & Hs & Hb)]]];
    [tauto|..].
  - exists "SourceSans-Bold"%string. split; [exact Hb|].
    assert (Hrun : fst (exec content (fresh fl ({[ "SourceSans"%string ]} ∪ ∅))) =
                   inl (ValueError "SourceSans-Bold") /\
                   length (heap (snd (exec content (fresh fl ({[ "SourceSans"%string ]} ∪ ∅))))) = 1 /\
                   files (snd (exec content (fresh fl ({[ "SourceSans"%string ]} ∪ ∅)))) = fl /\
                   stdout (snd (exec content (fresh fl ({[ "SourceSans"%string ]} ∪ ∅)))) = [])
      by (repeat split; vm_compute; reflexivity).
    destruct Hrun as (Hr & Hlen & Hfl & Hout). cbn [fst snd files fonts stdout heap with_fonts].
    rewrite Hr, Hlen, Hfl, Hout. repeat split. left. split; reflexivity.
  - exists "SourceSans"%string. split; [exact Hs|].
    assert (Hrun : fst (exec content (fresh fl (∅ ∪ {[ "SourceSans-Bold"%string ]}))) =
                   inl (ValueError "SourceSans") /\
                   length (heap (snd (exec content (fresh fl (∅ ∪ {[ "SourceSans-Bold"%string ]}))))) = 3 /\
                   files (snd (exec content (fresh fl (∅ ∪ {[ "SourceSans-Bold"%string ]})))) = fl /\
                   stdout (snd (exec content (fresh fl (∅ ∪ {[ "SourceSans-Bold"%string ]})))) = [])
      by (repeat split; vm_compute; reflexivity).
    destruct Hrun as (Hr & Hlen & Hfl & Hout). cbn [fst snd files fonts stdout heap with_fonts].
    rewrite Hr, Hlen, Hfl, Hout. repeat split. right. split; reflexivity.
  - exists "SourceSans-Bold"%string. split; [exact Hb|].
    assert (Hrun : fst (exec content (fresh fl (∅ ∪ ∅))) =
                   inl (ValueError "SourceSans-Bold") /\
                   length (heap (snd (exec content (fresh fl (∅ ∪ ∅))))) = 1 /\
                   files (snd (exec content (fresh fl (∅ ∪ ∅)))) = fl /\
                   stdout (snd (exec content (fresh fl (∅ ∪ ∅)))) = [])
      by (repeat split; vm_compute; reflexivity).
    destruct Hrun as (Hr & Hlen & Hfl & Hout). cbn [fst snd files fonts stdout heap with_fonts].
    rewrite Hr, Hlen, Hfl, Hout. repeat split. left. split; reflexivity.
Qed.
Lemma deref_story (w : world) :
  heap w = built_heap -> deref built_elements w = (inr story, w).
Proof.
  intros Hw. unfold deref. rewrite Hw.
  assert (mapM (fun r => built_heap !! r) built_elements = Some story) as ->
    by (vm_compute; reflexivity).
  reflexivity.
Qed.

Lemma build_run (height_of : Flowable -> Q) (d : SimpleDocTemplate)
    (onFirstPage onLaterPages : SimpleDocTemplate -> ST canvas unit)
    (w : world) (refs : list nat) (fs : list Flowable) :
  deref refs w = (inr fs, w) ->
  build height_of d refs onFirstPage onLaterPages w =
  match layout height_of d onFirstPage onLaterPages fs with
  | inl e => (inl e, w)
  | inr result => write_file (filename d) (Pdf result) w
  end.
Proof.
  intros Hrefs. unfold build. rewrite (bind_inr _ _ _ _ _ Hrefs).
  now destruct (layout height_of d onFirstPage onLaterPages fs).
Qed.

(** The whole script, from any filesystem: the flowables of [story] reach
    the engine; a layout error ends the run before anything is written or
    printed, otherwise the document is written to [OUT_PDF] and the
    completion message printed. *)

(** The whole script, from any filesystem, when the registration block
    registered both fonts: the flowables of [story] reach the engine; a
    layout error ends the run before anything is written or printed,
    otherwise the document is written to [OUT_PDF] and the completion
    message printed. *)
Lemma main_run (height_of : Flowable -> Q) (fs : gmap string file) (fn : gset string) :
  register_fonts (boot fs) = (inr tt, fresh fs fn) ->
  "SourceSans"%string ∈ fn -> "SourceSans-Bold"%string ∈ fn ->
  main height_of (boot fs) =
  match layout height_of doc (on_page fn) (on_page fn) story with
  | inl e => (inl e, at_build fs fn)
  | inr result =>
      (inr tt,
       {| files := <[ OUT_PDF := Pdf result ]> fs; fonts := fn;
          heap := built_heap; globals := built_globals;
          elements := built_elements;
          stdout := ["PDF generation script run complete. Output file: " ++ OUT_PDF]%string |})
  end.
Proof.
  intros Hreg Hs Hb. rewrite (at_build_eq fs fn Hs Hb). unfold main.
  rewrite (bind_inr _ _ _ _ _ Hreg).
  rewrite (bind_inr _ _ _ _ _ (content_runs fs fn Hs Hb)).
  set (w := {| files := fs; fonts := fn; heap := built_heap; globals := built_globals;
               elements := built_elements; stdout := [] |}).
  assert (Hbuild : (let* registered := (fun w0 => (inr (fonts w0), w0)) in
                    let* els := (fun w0 => (inr (elements w0), w0)) in
                    build height_of doc els (on_page registered) (on_page registered)) w =
                   match layout height_of doc (on_page fn) (on_page fn) story with
                   | inl e => (inl e, w)
                   | inr result => write_file (filename doc) (Pdf result) w
                   end).
  { erewrite bind_inr by reflexivity. erewrite bind_inr by reflexivity.
    apply build_run. now apply deref_story. }
  destruct (layout height_of doc (on_page fn) (on_page fn) story) as [e|result].
  - now rewrite (bind_inl _ _ _ _ _ Hbuild).
  - now rewrite (bind_inr _ _ _ _ _ Hbuild).
Qed.

(** When it did not, the run ends at the first paragraph set in a missing
    font, with nothing written and nothing printed. *)
Lemma main_stops (height_of : Flowable -> Q) (fs : gmap string file) (fn : gset string) :
  register_fonts (boot fs) = (inr tt, fresh fs fn) ->
  ~ ("SourceSans"%string ∈ fn /\ "SourceSans-Bold"%string ∈ fn) ->
  exists font,
    (font ∉ fn) /\
    main height_of (boot fs) = (inl (ValueError font), at_build fs fn) /\
    files (at_build fs fn) = fs /\ stdout (at_build fs fn) = [].
Proof.
  intros Hreg Hmiss.
  destruct (content_stops fs fn Hmiss) as (font & Hfont & Hrun & Hfl & _ & Hout & _).
  exists font. split; [exact Hfont|]. split; [|split; assumption].
  unfold main. rewrite (bind_inr _ _ _ _ _ Hreg).
  now rewrite (bind_inl _ _ _ _ _ Hrun).
Qed.

(** The decorator never makes the build fail when SourceSans is registered. *)
Lemma decorate_from_on_page (fn : gset string) (k : nat) (contents : list (list box)) :
  "SourceSans"%string ∈ fn ->
  exists ps, decorate_from doc (on_page fn) (on_page fn) k contents = inr ps.
Proof.
  intros Hs. revert k. induction contents as [|content rest IH]; intros k; cbn; [eauto|].
  unfold decorate.
  destruct (on_page_paints fn doc k Hs) as (c & Hc & _).
  destruct (IH (S k)) as [ps ->].
  destruct (Nat.eqb k 1); rewrite Hc; eauto.
Qed.

(** With the regular and the bold file there, both names get registered,
    whether or not the serif file is there. *)
Lemma register_fonts_both (fs : gmap string file) :
  fs !! DejaVuSans_ttf = Some TrueType ->
  fs !! DejaVuSans_Bold_ttf = Some TrueType ->
  exists fn, register_fonts (boot fs) = (inr tt, fresh fs fn) /\
             "SourceSans"%string ∈ fn /\ "SourceSans-Bold"%string ∈ fn.
Proof.
  unfold DejaVuSans_ttf, DejaVuSans_Bold_ttf. intros Hsans Hbold.
  unfold register_fonts, try_except, registerFont, TTFont, bind, modify, ret, boot, fresh;
    cbn [files fonts heap globals elements stdout].
  rewrite Hsans. cbn [files fonts heap globals elements stdout].
  rewrite Hbold. cbn [files fonts heap globals elements stdout].
  destruct (fs !! "/usr/share/fonts/truetype/dejavu/DejaVuSerif.ttf"%string) as [[|]|];
    cbn [files fonts heap globals elements stdout];
    eexists; (split; [reflexivity|]); split.
  - apply elem_of_union_r, elem_of_union_r, elem_of_union_l, elem_of_singleton_2. reflexivity.
  - apply elem_of_union_r, elem_of_union_l, elem_of_singleton_2. reflexivity.
  - apply elem_of_union_r, elem_of_union_l, elem_of_singleton_2. reflexivity.
  - apply elem_of_union_l, elem_of_singleton_2. reflexivity.
  - apply elem_of_union_r, elem_of_union_l, elem_of_singleton_2. reflexivity.
  - apply elem_of_union_l, elem_of_singleton_2. reflexivity.
Qed.

(** Without the regular or without the bold file, SourceSans-Bold is not
    registered; without the regular one nothing is. *)
Lemma register_fonts_missing (fs : gmap string file) :
  fs !! DejaVuSans_ttf = None \/ fs !! DejaVuSans_Bold_ttf = None ->
  exists fn, register_fonts (boot fs) = (inr tt, fresh fs fn) /\
             ("SourceSans-Bold"%string ∉ fn) /\
             (fs !! DejaVuSans_ttf = None -> fn = standardFonts).
Proof.
  unfold DejaVuSans_ttf, DejaVuSans_Bold_ttf. intros Hmiss.
  unfold register_fonts, try_except, registerFont, TTFont, bind, modify, ret, boot, fresh;
    cbn [files fonts heap globals elements stdout].
  destruct (fs !! "/usr/share/fonts/truetype/dejavu/DejaVuSans.ttf"%string) as [[|]|];
    cbn [files fonts heap globals elements stdout].
  - destruct Hmiss as [Hmiss|Hmiss]; [discriminate|]. rewrite Hmiss.
    eexists. split; [reflexivity|]. split; [by_computation|discriminate].
  - eexists. split; [reflexivity|]. split; [by_computation|reflexivity].
  - eexists. split; [reflexivity|]. split; [by_computation|reflexivity].
Qed.

(** The script does leave a document whenever the regular and the bold font
    file are there and each of its flowables fits on a page of its own. *)
Lemma main_succeeds (height_of : Flowable -> Q) (fs : gmap string file) :
  fs !! DejaVuSans_ttf = Some TrueType ->
  fs !! DejaVuSans_Bold_ttf = Some TrueType ->
  Forall (fun f => (height_of f <= frame_top doc - frame_bottom doc)%Q) story ->
  exists result, output (main height_of (boot fs)) = Some result.
Proof.
  intros Hsans Hbold Hfit.
  assert (Hflow : exists st, flow height_of doc 0 story (start doc) = inr st).
  { apply flow_succeeds.
    assert (Hw : Forall (fun f => too_wide doc f = false) story).
    { unfold story. repeat (constructor; [vm_compute; reflexivity|]). constructor. }
    rewrite Forall_forall in Hfit, Hw. apply Forall_forall.
    intros f Hf. split; [now apply Hw|now apply Hfit]. }
  destruct Hflow as [st Hflow].
  destruct (register_fonts_both fs Hsans Hbold) as (fn & Hreg & Hs & Hb).
  destruct (decorate_from_on_page fn 1 (bodies st) Hs) as [ps Hps].
  rewrite (main_run height_of fs fn Hreg Hs Hb).
  unfold layout. rewrite Hflow, Hps.
  eexists. unfold output. cbn [files]. rewrite lookup_insert_eq. reflexivity.
Qed.

(** A run that leaves a document has laid [story] out, with SourceSans
    registered for the decorator. *)
Lemma output_layout (height_of : Flowable -> Q) (fs : gmap string file) (result : document) :
  output (main height_of (boot fs)) = Some result ->
  exists fn, "SourceSans"%string ∈ fn /\
             layout height_of doc (on_page fn) (on_page fn) story = inr result.
Proof.
  destruct (register_fonts_boot fs) as (fn & Hreg & _).
  destruct (decide ("SourceSans"%string ∈ fn)) as [Hs|Hs];
    [destruct (decide ("SourceSans-Bold"%string ∈ fn)) as [Hb|Hb]|].
  - rewrite (main_run height_of fs fn Hreg Hs Hb). intros Hout. exists fn.
    split; [exact Hs|].
    destruct (layout height_of doc (on_page fn) (on_page fn) story) as [e|r];
      [discriminate|].
    unfold output in Hout. cbn [files] in Hout. rewrite lookup_insert_eq in Hout.
    now injection Hout as ->.
  - destruct (main_stops height_of fs fn Hreg) as (font & _ & -> & _); [tauto|discriminate].
  - destruct (main_stops height_of fs fn Hreg) as (font & _ & -> & _); [tauto|discriminate].
Qed.

Lemma str_inj (j k : nat) : str j = str k -> j = k.
Proof.
  unfold str. intros H.
  apply (f_equal NilEmpty.uint_of_string) in H.
  rewrite !NilEmpty.usu in H. injection H as H.
  apply (f_equal Nat.of_uint) in H.
  now rewrite !DecimalNat.Unsigned.of_to in H.
Qed.

(** Every page of a document the script leaves was decorated by [on_page]
    on the fresh canvas of its own number, whichever callback slot it came
    through. *)
Lemma output_pages (height_of : Flowable -> Q) (fs : gmap string file) (result : document) :
  output (main height_of (boot fs)) = Some result ->
  exists st,
    flow height_of doc 0 story (start doc) = inr st /\
    automatic_breaks result = breaks st /\
    length (pages result) = length (bodies st) /\
    forall j p, pages result !! j = Some p ->
      number p = S j /\ bodies st !! j = Some (body p) /\
      decoration p = background :: accent_lines ++ [stamp (S j)].
Proof.
  intros H. apply output_layout in H as (fn & Hs & H).
  apply layout_inr in H as (st & Hflow & Hdec & Hbr).
  apply decorate_from_lookup in Hdec as [Hlen Hpages].
  exists st. repeat split; try assumption.
  - apply (Hpages j p H).
  - apply (Hpages j p H).
  - destruct (Hpages j p H) as (_ & _ & c & Hc & ->).
    destruct (on_page_paints fn doc (1 + j) Hs) as (c' & Hc' & Hm).
    destruct (Nat.eqb (1 + j) 1); rewrite Hc' in Hc; injection Hc as <-; exact Hm.
Qed.
(** What has been built when the content part of the run ends: everything,
    with both fonts registered; the first spacer, when the title cannot be
    built; the first spacer, the title and the second spacer, when the
    subtitle cannot. *)
Lemma at_build_cases (fl : gmap string file) (fn : gset string) :
  ("SourceSans"%string ∈ fn /\ "SourceSans-Bold"%string ∈ fn /\
   heap (at_build fl fn) = built_heap /\
   elements (at_build fl fn) = built_elements /\
   globals (at_build fl fn) = built_globals) \/
  (("SourceSans-Bold"%string ∉ fn) /\
   heap (at_build fl fn) = take 1 built_heap /\
   elements (at_build fl fn) = [0] /\
   globals (at_build fl fn) = ∅) \/
  (("SourceSans"%string ∉ fn) /\ "SourceSans-Bold"%string ∈ fn /\
   heap (at_build fl fn) = take 3 built_heap /\
   elements (at_build fl fn) = [0; 1; 2] /\
   globals (at_build fl fn) = {[ "title"%string := 1 ]}).
Proof.
  rewrite at_build_by_need. cbn [heap elements globals with_fonts].
  destruct (needed_of_cases fn) as [(-> & Hs & Hb)|[(-> & Hs & Hb)|[(-> & Hs & Hb)|(-> & Hs & Hb)]]].
  - left. split; [exact Hs|]. split; [exact Hb|]. repeat split; vm_compute; reflexivity.
  - right. left. split; [exact Hb|]. repeat split; vm_compute; reflexivity.
  - right. right. split; [exact Hs|]. split; [exact Hb|]. repeat split; vm_compute; reflexivity.
  - right. left. split; [exact Hb|]. repeat split; vm_compute; reflexivity.
Qed.

Lemma at_build_heap (fl : gmap string file) (fn : gset string) :
  exists n, heap (at_build fl fn) = take n built_heap.
Proof.
  destruct (at_build_cases fl fn) as [(_ & _ & -> & _)|[(_ & -> & _)|(_ & _ & -> & _)]].
  - exists (length built_heap). now rewrite firstn_all.
  - now exists 1.
  - now exists 3.
Qed.

(** * The properties of the specification *)

(** ** C9 *)

(** C9.  Every table the script declares has column widths that sum to at
    most the usable page width, which is the A4 width of 210 mm less the
    20 mm left and right margins, 170 mm; so the engine's test for a table
    wider than the usable width is false for each of them. *)
Theorem declared_tables_fit (fl : gmap string file) (fn : gset string)
    (r : nat) (f : Flowable) :
  heap (at_build fl fn) !! r = Some f ->
  is_Table f = true ->
  (usable_width doc == 170 * mm)%Q /\
  (exists w, table_width f = Some w /\ (w <= usable_width doc)%Q) /\
  too_wide doc f = false.
Proof.
  destruct (at_build_heap fl fn) as [n ->].
  intros Hr Ht. apply lookup_take_Some in Hr as [Hr _].
  split; [vm_compute; reflexivity|].
  assert (Hall : Forall (fun f => is_Table f = true ->
                   (exists w, table_width f = Some w /\ (w <= usable_width doc)%Q) /\
                   too_wide doc f = false) built_heap).
  { unfold built_heap.
    repeat (constructor; [first [ discriminate
                                | intros _; split;
                                  [eexists; split; [reflexivity|]; vm_compute; discriminate
                                  |vm_compute; reflexivity] ] |]).
    constructor. }
  rewrite Forall_forall in Hall. apply Hall; [|exact Ht].
  eapply list_elem_of_lookup_2; exact Hr.
Qed.

Lemma declared_tables_fit_witness :
  heap (at_build ∅ needed_fonts) !! 18 =
    Some (Table [[Obj 16; Obj 17]] [85 * mm; 85 * mm]%Q None "CENTER"
            [cmd "VALIGN" (0, 0)%Z (-1, -1)%Z [AStr "TOP"];
             cmd "LEFTPADDING" (0, 0)%Z (-1, -1)%Z [ANum 6]]) /\
  too_wide doc (Table [[Obj 16; Obj 17]] [85 * mm; 85 * mm]%Q None "CENTER"
                  [cmd "VALIGN" (0, 0)%Z (-1, -1)%Z [AStr "TOP"];
                   cmd "LEFTPADDING" (0, 0)%Z (-1, -1)%Z [ANum 6]]) = false.
Proof.
  split; [vm_compute; reflexivity|].
  apply (declared_tables_fit ∅ needed_fonts 18); [vm_compute; reflexivity|reflexivity].
Defined.

(** The two sample runs do leave their documents. *)
Lemma sample_output :
  output (main one_line_heights (boot fonts_installed)) = Some sample_document.
Proof. vm_compute. reflexivity. Qed.

Lemma overflowing_output :
  output (main tall_heights (boot fonts_installed)) = Some overflowing_document.
Proof. vm_compute. reflexivity. Qed.

(** ** C10 *)

(** C10.  [doc.build] is given [on_page] both for the first and for the later
    pages, so every page of the produced document carries the same
    decoration: the full-page background fill, the same two accent lines,
    and a stamp at one fixed place whose only varying part is the page's own
    number. *)
Theorem every_page_same_decoration (height_of : Flowable -> Q)
    (fs : gmap string file) (result : document) (p : page) :
  output (main height_of (boot fs)) = Some result ->
  p ∈ pages result ->
  decoration p = background :: accent_lines ++ [stamp (number p)].
Proof.
  intros Hout Hp. apply output_pages in Hout as (st & _ & _ & _ & Hpages).
  apply list_elem_of_lookup_1 in Hp as [j Hj].
  destruct (Hpages j p Hj) as (-> & _ & ->). reflexivity.
Qed.

Lemma every_page_same_decoration_witness :
  exists p, pages overflowing_document !! 27 = Some p /\
            decoration p = background :: accent_lines ++ [stamp 28].
Proof.
  eexists. split; [vm_compute; reflexivity|].
  apply (every_page_same_decoration tall_heights fonts_installed overflowing_document).
  - exact overflowing_output.
  - apply (list_elem_of_lookup_2 _ 27). vm_compute. reflexivity.
Defined.

(** ** C5 *)

(** C5.  On page k of the produced document, k = 1..N, the stamp the
    decorator paints is the page number k itself, drawn right-aligned
    20 mm from the right edge and 12 mm above the bottom edge, below the
    bottom margin; read in page order the stamps count 1, 2, ..., N, and no
    two pages carry the same stamp. *)
Theorem page_number_stamps (height_of : Flowable -> Q)
    (fs : gmap string file) (result : document) :
  output (main height_of (boot fs)) = Some result ->
  (forall k p, pages result !! k = Some p ->
     number p = S k /\
     last (decoration p) = Some (stamp (S k)) /\
     stamp_text p = Some ("Page " ++ str (S k))%string) /\
  stamp_text <$> pages result =
    (fun k => Some ("Page " ++ str k)%string) <$> seq 1 (length (pages result)) /\
  NoDup (stamp_text <$> pages result) /\
  (forall k, exists t g, stamp k = MRightString (PAGE_WIDTH - 20 * mm)%Q (12 * mm)%Q t g) /\
  (12 * mm < bottomMargin doc)%Q.
Proof.
  intros Hout. apply output_pages in Hout as (st & _ & _ & _ & Hpages).
  assert (Hone : forall k p, pages result !! k = Some p ->
            number p = S k /\ last (decoration p) = Some (stamp (S k)) /\
            stamp_text p = Some ("Page " ++ str (S k))%string).
  { intros k p Hk. destruct (Hpages k p Hk) as (Hn & _ & Hd).
    unfold stamp_text. rewrite Hd. split; [exact Hn|]. split; reflexivity. }
  assert (Hmap : stamp_text <$> pages result =
            (fun k => Some ("Page " ++ str k)%string) <$> seq 1 (length (pages result))).
  { apply list_eq. intros k. rewrite !list_lookup_fmap.
    destruct (pages result !! k) as [p|] eqn:Hk; cbn.
    - destruct (Hone k p Hk) as (_ & _ & ->).
      rewrite lookup_seq_lt by (eapply lookup_lt_Some; eauto). reflexivity.
    - apply lookup_ge_None in Hk. rewrite lookup_seq_ge by exact Hk. reflexivity. }
  split; [exact Hone|]. split; [exact Hmap|]. split; [|split].
  - rewrite Hmap.
    assert (Hinj : Inj (=) (=) (fun k => Some ("Page " ++ str k)%string)).
    { intros j k Hjk. injection Hjk as Hjk. now apply str_inj. }
    apply (NoDup_fmap_2 _ _ (NoDup_seq _ _)).
  - intros k. unfold stamp. eauto.
  - vm_compute. reflexivity.
Qed.

Lemma page_number_stamps_witness :
  length (pages overflowing_document) = 28 /\
  stamp_text <$> pages overflowing_document =
    (fun k => Some ("Page " ++ str k)%string) <$> seq 1 28 /\
  NoDup (stamp_text <$> pages overflowing_document).
Proof.
  split; [vm_compute; reflexivity|].
  destruct (page_number_stamps tall_heights fonts_installed overflowing_document
              overflowing_output) as (_ & Hmap & Hnodup & _).
  split; [exact Hmap|exact Hnodup].
Defined.

(** ** C8 *)

(** C8.  The page count of the produced document is the number of automatic
    page breaks the overflow of content induced, plus the number of explicit
    PageBreak markers in the content sequence (eight), plus one. *)
Theorem page_count (height_of : Flowable -> Q)
    (fs : gmap string file) (result : document) :
  output (main height_of (boot fs)) = Some result ->
  length (pages result) =
    automatic_breaks result + length (filter (fun f => is_PageBreak f = true) story) + 1 /\
  length (filter (fun f => is_PageBreak f = true) story) = 8.
Proof.
  intros Hout. split; [|vm_compute; reflexivity].
  apply output_pages in Hout as (st & Hflow & -> & -> & _).
  apply flow_counts in Hflow. unfold start in Hflow.
  cbn [finished breaks length] in Hflow.
  unfold bodies. rewrite length_reverse, length_fmap. cbn [length]. lia.
Qed.

Lemma page_count_witness :
  automatic_breaks overflowing_document = 19 /\
  length (pages overflowing_document) = 19 + 8 + 1.
Proof.
  split; [vm_compute; reflexivity|].
  destruct (page_count tall_heights fonts_installed overflowing_document
              overflowing_output) as [Hcount Height].
  rewrite Hcount, Height. vm_compute. reflexivity.
Defined.

(** ** C6 *)

(** C6.  For every explicit PageBreak marker of the content sequence, no page
    of the produced document holds content from before the marker together
    with content from after it, and the content that immediately follows the
    marker is the first thing on its page. *)
Theorem page_break_starts_new_page (height_of : Flowable -> Q)
    (fs : gmap string file) (result : document) (i : nat) (p : page) :
  output (main height_of (boot fs)) = Some result ->
  story !! i = Some PageBreak ->
  p ∈ pages result ->
  (Forall (fun b => index b < i) (body p) \/ Forall (fun b => i < index b) (body p)) /\
  (forall b, b ∈ body p -> index b = S i -> exists rest, body p = b :: rest).
Proof.
  intros Hout Hi Hp.
  apply output_pages in Hout as (st & Hflow & _ & _ & Hpages).
  apply list_elem_of_lookup_1 in Hp as [j Hj].
  destruct (Hpages j p Hj) as (_ & Hbody & _).
  assert (Hsheet : reverse (body p) ∈ sheets st).
  { apply list_elem_of_lookup_2 in Hbody. unfold bodies in Hbody.
    apply elem_of_reverse, list_elem_of_fmap in Hbody as (pg & -> & Hpg).
    now rewrite reverse_involutive. }
  pose proof (take_drop_middle story i PageBreak Hi) as Hsplit.
  rewrite <- Hsplit in Hflow.
  destruct (flow_page_break _ _ _ _ _ Hflow _ Hsheet) as [Hside Hhead].
  assert (Hlen : length (take i story) = i).
  { apply length_take_le. apply lookup_lt_Some in Hi. lia. }
  rewrite Hlen in Hside, Hhead. split.
  - destruct Hside as [H|H]; [left|right]; rewrite Forall_reverse in H; exact H.
  - intros b Hb Hidx. destruct (Hhead b) as [front Hfront]; [|exact Hidx|].
    + now apply elem_of_reverse.
    + exists (reverse front). apply (f_equal reverse) in Hfront.
      rewrite reverse_involutive, reverse_app in Hfront. exact Hfront.
Qed.

Lemma page_break_starts_new_page_witness :
  exists p b, story !! 9 = Some PageBreak /\
              pages sample_document !! 1 = Some p /\
              head (body p) = Some b /\ index b = 10 /\
              Forall (fun b => 9 < index b) (body p).
Proof.
  eexists. eexists.
  split; [vm_compute; reflexivity|].
  split; [vm_compute; reflexivity|].
  split; [vm_compute; reflexivity|].
  split; [reflexivity|].
  match goal with |- Forall _ (body ?p) =>
    destruct (page_break_starts_new_page one_line_heights fonts_installed
                sample_document 9 p sample_output) as [[Hbefore|Hafter] _]
  end.
  - vm_compute; reflexivity.
  - apply (list_elem_of_lookup_2 _ 1). vm_compute. reflexivity.
  - apply Forall_cons in Hbefore as [Hlt _]. cbn in Hlt. lia.
  - exact Hafter.
Defined.

(** ** C2 *)

Lemma doc_frame_ok : (frame_bottom doc <= frame_top doc)%Q.
Proof. apply Qle_bool_iff. vm_compute. reflexivity. Qed.

(** The furniture lies in the margins: the top accent line above the frame,
    the footer line and the stamp below it. *)
Lemma furniture_outside_frame (k : nat) (m : mark) :
  m ∈ accent_lines ++ [stamp k] ->
  (snd (y_extent m) < frame_bottom doc)%Q \/ (frame_top doc < fst (y_extent m))%Q.
Proof.
  intros Hm. unfold accent_lines in Hm. cbn [app] in Hm.
  apply elem_of_cons in Hm as [->|Hm]; [right; vm_compute; reflexivity|].
  apply elem_of_cons in Hm as [->|Hm]; [left; vm_compute; reflexivity|].
  apply elem_of_cons in Hm as [->|Hm]; [left; vm_compute; reflexivity|].
  now apply elem_of_nil in Hm.
Qed.

(** C2.  On every page of the produced document the background fill is the
    first thing painted, and the flowed content never shares any height of
    the page with the furniture (the two accent lines and the page-number
    stamp): the content stays inside the frame between the margins, the
    furniture lies in the margins, so that neither can cover the other in
    whatever order they are painted. *)
Theorem content_never_covers_furniture (height_of : Flowable -> Q)
    (fs : gmap string file) (result : document) (p : page) :
  Forall (fun f => (0 <= height_of f)%Q) story ->
  output (main height_of (boot fs)) = Some result ->
  p ∈ pages result ->
  (exists furniture,
     image p = Deco background :: map Deco furniture ++ map Flow (body p) /\
     forall b m, b ∈ body p -> m ∈ furniture -> clear_of b m) /\
  (forall b, b ∈ body p -> in_frame doc b).
Proof.
  intros Hnonneg Hout Hp.
  apply output_pages in Hout as (st & Hflow & _ & _ & Hpages).
  apply list_elem_of_lookup_1 in Hp as [j Hj].
  destruct (Hpages j p Hj) as (_ & Hbody & Hdeco).
  assert (Hin : forall b, b ∈ body p -> in_frame doc b).
  { intros b Hb.
    apply (flow_well_placed height_of doc doc_frame_ok _ _ _ _ Hnonneg) in Hflow;
      [|apply start_well_placed, doc_frame_ok].
    destruct Hflow as (_ & _ & Hall).
    apply list_elem_of_lookup_2 in Hbody. unfold bodies in Hbody.
    apply elem_of_reverse, list_elem_of_fmap in Hbody as (pg & Hpg & Hsheet).
    rewrite Forall_forall in Hall. specialize (Hall _ Hsheet).
    rewrite Forall_forall in Hall. apply Hall.
    rewrite Hpg, elem_of_reverse in Hb. exact Hb. }
  split; [|exact Hin].
  exists (accent_lines ++ [stamp (S j)]). split.
  - unfold image. rewrite Hdeco. reflexivity.
  - intros b m Hb Hm. destruct (Hin b Hb) as (Hlo & _ & Hhi).
    unfold clear_of.
    destruct (furniture_outside_frame _ _ Hm) as [Hbelow|Habove].
    + left. eapply Qlt_le_trans; eauto.
    + right. eapply Qle_lt_trans; eauto.
Qed.

Lemma tall_heights_nonneg : Forall (fun f => (0 <= tall_heights f)%Q) story.
Proof.
  vm_compute story. repeat (constructor; [discriminate|]). constructor.
Qed.

Lemma content_never_covers_furniture_witness :
  exists p, pages overflowing_document !! 1 = Some p /\
    (forall b, b ∈ body p -> in_frame doc b) /\
    (exists furniture,
       image p = Deco background :: map Deco furniture ++ map Flow (body p) /\
       forall b m, b ∈ body p -> m ∈ furniture -> clear_of b m).
Proof.
  eexists. split; [vm_compute; reflexivity|].
  match goal with |- (forall b, b ∈ body ?p -> _) /\ _ =>
    destruct (content_never_covers_furniture tall_heights fonts_installed
                overflowing_document p tall_heights_nonneg overflowing_output)
      as [Hclear Hframe]
  end.
  - apply (list_elem_of_lookup_2 _ 1). vm_compute. reflexivity.
  - split; [exact Hframe|exact Hclear].
Defined.

(** ** C3 *)

(** The states of the content part of the run, whatever the fonts. *)
Lemma content_trace_last (fl : gmap string file) (fn : gset string) :
  last (trace content (fresh fl fn)) = Some (at_build fl fn).
Proof. unfold at_build. exact (trace_last content (fresh fl fn)). Qed.

(** C3, as the specification words it, fails: after its construction on
    line 99 the crest box has no style command, and the [setStyle] call of
    lines 100-103 changes that very object before the build consumes it. *)
Lemma crest_box_changed_after_construction :
  ~ immutable_once_constructed (trace content (fresh ∅ needed_fonts)) (at_build ∅ needed_fonts).
Proof.
  intros Himm.
  specialize (Himm 12 8 (snd (exec (take 12 content) (fresh ∅ needed_fonts)))
                (Table [[Str " "]] [160 * mm]%Q (Some [40 * mm]%Q) "CENTER" [])).
  assert (Hfinal : heap (at_build ∅ needed_fonts) !! 8 =
            Some (Table [[Str " "]] [160 * mm]%Q (Some [40 * mm]%Q) "CENTER" [])).
  { apply Himm; vm_compute; reflexivity. }
  vm_compute in Hfinal. discriminate.
Qed.

(** C3, amended.  Once a block has been appended to the content sequence it
    is never changed again: when the build consumes it, it is what it was
    in every state of the run since its append.  Blocks that are not tables
    are never changed at all after their construction. *)
Theorem blocks_immutable_once_appended (fl : gmap string file) (fn : gset string) :
  immutable_once_appended (trace content (fresh fl fn)) (at_build fl fn) /\
  (forall n r w f,
     trace content (fresh fl fn) !! n = Some w ->
     heap w !! r = Some f -> is_Table f = false ->
     heap (at_build fl fn) !! r = Some f).
Proof.
  rewrite trace_by_need, at_build_by_need. cbn [heap with_fonts].
  assert (Happ : Forall (fun w => Forall (fun r => heap w !! r =
                                      heap (at_build fl (needed_of fn)) !! r)
                                    (elements w))
                   (trace content (fresh fl (needed_of fn)))).
  { destruct (needed_of_cases fn) as [(-> & _)|[(-> & _)|[(-> & _)|(-> & _)]]];
      by_computation. }
  assert (Hrest : Forall (fun w => Forall (fun f => is_Table f.2 = false ->
                                      heap (at_build fl (needed_of fn)) !! f.1 = Some f.2)
                                    (imap pair (heap w)))
                    (trace content (fresh fl (needed_of fn)))).
  { destruct (needed_of_cases fn) as [(-> & _)|[(-> & _)|[(-> & _)|(-> & _)]]];
      by_computation. }
  split.
  - intros n r w Hn Hr.
    apply list_lookup_fmap_Some in Hn as (w0 & -> & Hn).
    cbn [heap elements with_fonts] in *.
    rewrite Forall_lookup in Happ. specialize (Happ n w0 Hn).
    rewrite Forall_forall in Happ. now apply Happ.
  - intros n r w f Hn Hr Hf.
    apply list_lookup_fmap_Some in Hn as (w0 & -> & Hn).
    cbn [heap elements with_fonts] in *.
    rewrite Forall_lookup in Hrest. specialize (Hrest n w0 Hn).
    rewrite Forall_lookup in Hrest.
    apply (Hrest r (r, f)); [|exact Hf].
    rewrite list_lookup_imap, Hr. reflexivity.
Qed.

Lemma blocks_immutable_once_appended_witness :
  trace content (fresh ∅ needed_fonts) !! 14 = Some (snd (exec (take 14 content) (fresh ∅ needed_fonts))) /\
  8 ∈ elements (snd (exec (take 14 content) (fresh ∅ needed_fonts))) /\
  heap (snd (exec (take 14 content) (fresh ∅ needed_fonts))) !! 8 = heap (at_build ∅ needed_fonts) !! 8.
Proof.
  split; [vm_compute; reflexivity|].
  assert (Hin : 8 ∈ elements (snd (exec (take 14 content) (fresh ∅ needed_fonts)))).
  { apply (list_elem_of_lookup_2 _ 8). vm_compute. reflexivity. }
  split; [exact Hin|].
  destruct (blocks_immutable_once_appended ∅ needed_fonts) as [Happ _].
  apply (Happ 14 8); [vm_compute; reflexivity|exact Hin].
Defined.

(** ** C4 *)

(** C4.  If any table among the flowables handed to the build has column
    widths that sum to more than the usable width of the page, the build
    raises a layout error and leaves the world as it found it: no output
    file is written, none is truncated or replaced. *)
Theorem too_wide_table_rejected (height_of : Flowable -> Q) (d : SimpleDocTemplate)
    (onFirstPage onLaterPages : SimpleDocTemplate -> ST canvas unit)
    (w : world) (refs : list nat) (fs : list Flowable) :
  mapM (fun r => heap w !! r) refs = Some fs ->
  Exists (fun f => too_wide d f = true) fs ->
  exists msg,
    build height_of d refs onFirstPage onLaterPages w = (inl (LayoutError msg), w).
Proof.
  intros Hrefs Hwide.
  destruct (flow_too_wide height_of d 0 fs (start d) Hwide) as [msg Hflow].
  exists msg. unfold build.
  erewrite bind_inr by (unfold deref; rewrite Hrefs; reflexivity).
  unfold layout. rewrite Hflow. reflexivity.
Qed.

Lemma too_wide_table_rejected_witness :
  too_wide doc wide_table = true /\
  exists msg,
    build one_line_heights doc (elements wide_world)
          (on_page (fonts wide_world)) (on_page (fonts wide_world)) wide_world
    = (inl (LayoutError msg), wide_world).
Proof.
  split; [vm_compute; reflexivity|].
  apply (too_wide_table_rejected one_line_heights doc
           (on_page (fonts wide_world)) (on_page (fonts wide_world)) wide_world
           (elements wide_world) [wide_table]).
  - reflexivity.
  - constructor. vm_compute. reflexivity.
Defined.

(** ** C1 *)

(** C1, on a machine without the regular or without the bold DejaVu file.
    The registration block swallows the error and the script goes on, with
    SourceSans-Bold not registered and no other font chosen in its place;
    the run then aborts on line 88, where the title paragraph is built in
    the style [cover_title]: [Paragraph] raises ValueError for the font
    name SourceSans-Bold.  Only the first spacer has been built by then;
    [doc.build] is never reached, nothing is written, nothing is printed,
    and no document is left.  Without the regular file nothing at all has
    been registered, and the page decorator would raise as well, KeyError
    for SourceSans, on any canvas. *)
Theorem missing_font_aborts_run (height_of : Flowable -> Q) (fs : gmap string file) :
  fs !! DejaVuSans_ttf = None \/ fs !! DejaVuSans_Bold_ttf = None ->
  fst (register_fonts (boot fs)) = inr tt /\
  exists w,
    main height_of (boot fs) = (inl (ValueError "SourceSans-Bold"), w) /\
    ("SourceSans-Bold"%string ∉ fonts w) /\
    style_fontName <$> styles !! "cover_title"%string = Some "SourceSans-Bold"%string /\
    length (heap w) = 1 /\ elements w = [0] /\
    files w = fs /\ stdout w = [] /\
    output (main height_of (boot fs)) = None /\
    (fs !! DejaVuSans_ttf = None ->
       fonts w = standardFonts /\
       forall d c, fst (on_page (fonts w) d c) = inl (KeyError "SourceSans")).
Proof.
  intros Hmiss.
  destruct (register_fonts_missing fs Hmiss) as (fn & Hreg & Hbold & Hnone).
  split; [now rewrite Hreg|].
  assert (Hrun : main height_of (boot fs) = (inl (ValueError "SourceSans-Bold"), at_build fs fn)).
  { destruct (main_stops height_of fs fn Hreg) as (font & _ & Hrun & _); [tauto|].
    destruct (content_stops fs fn) as (font' & _ & Hc & _ & _ & _ & Hfont); [tauto|].
    unfold main in Hrun. rewrite (bind_inr _ _ _ _ _ Hreg) in Hrun.
    rewrite (bind_inl _ _ _ _ _ Hc) in Hrun. injection Hrun as <-.
    unfold main. rewrite (bind_inr _ _ _ _ _ Hreg), (bind_inl _ _ _ _ _ Hc).
    destruct (at_build_cases fs fn) as [(_ & ? & _)|[(_ & Hh & _)|(_ & ? & _)]];
      [contradiction| |contradiction].
    destruct Hfont as [[-> _]|[_ Hlen]]; [reflexivity|].
    rewrite Hh in Hlen. vm_compute in Hlen. discriminate. }
  exists (at_build fs fn). split; [exact Hrun|].
  destruct (content_stops fs fn) as (font & _ & _ & Hfl & Hfn & Hout & _); [tauto|].
  destruct (at_build_cases fs fn) as [(_ & ? & _)|[(_ & Hh & He & _)|(_ & ? & _)]];
    [contradiction| |contradiction].
  rewrite Hfn, Hh, He, Hfl, Hout, Hrun.
  split; [exact Hbold|]. split; [vm_compute; reflexivity|].
  split; [reflexivity|]. split; [reflexivity|]. split; [reflexivity|].
  split; [reflexivity|]. split; [reflexivity|].
  intros Hsans. rewrite (Hnone Hsans). split; [reflexivity|].
  intros d c. rewrite on_page_fails; [reflexivity|by_computation].
Qed.

Lemma missing_font_aborts_run_witness :
  (∅ : gmap string file) !! DejaVuSans_ttf = None /\
  exists w, main one_line_heights (boot ∅) = (inl (ValueError "SourceSans-Bold"), w) /\
            files w = ∅ /\ stdout w = [] /\
            output (main one_line_heights (boot ∅)) = None.
Proof.
  split; [reflexivity|].
  destruct (missing_font_aborts_run one_line_heights ∅) as (_ & w & Hrun & _ & _ & _ & _ & Hfl & Hout & Hdoc & _).
  - left. reflexivity.
  - exists w. split; [exact Hrun|]. split; [exact Hfl|]. split; [exact Hout|exact Hdoc].
Defined.
(** * Further properties of the script *)

(** ** Font registration (lines 30-36) *)

Ltac run_registration :=
  unfold register_fonts, try_except, registerFont, TTFont, bind, modify, ret;
  cbn [files fonts heap globals elements stdout].

Ltac registration_done :=
  eexists; (split; [reflexivity|]);
  cbn [files fonts heap globals elements stdout];
  do 5 (split; [reflexivity|]); split; set_unfold; intros; tauto.

(** X1.  The registration block never raises, whatever the filesystem holds
    and whatever world it starts in; it changes nothing but the font
    registry, keeps every font that was registered, and adds at most the
    three names SourceSans, SourceSans-Bold and SourceSerif. *)
Theorem register_fonts_never_raises (w : world) :
  exists w',
    register_fonts w = (inr tt, w') /\
    files w' = files w /\ heap w' = heap w /\ globals w' = globals w /\
    elements w' = elements w /\ stdout w' = stdout w /\
    fonts w ⊆ fonts w' /\
    fonts w' ⊆ {[ "SourceSans"; "SourceSans-Bold"; "SourceSerif" ]} ∪ fonts w.
Proof.
  run_registration.
  destruct (files w !! _) as [[|]|];
    cbn [files fonts heap globals elements stdout]; [|registration_done..].
  destruct (files w !! _) as [[|]|];
    cbn [files fonts heap globals elements stdout]; [|registration_done..].
  destruct (files w !! _) as [[|]|];
    cbn [files fonts heap globals elements stdout]; registration_done.
Qed.

(** X2.  When the three font files are there, the block registers the three
    names, on top of the fonts already registered. *)
Theorem register_fonts_all_present (w : world) :
  files w !! DejaVuSans_ttf = Some TrueType ->
  files w !! DejaVuSans_Bold_ttf = Some TrueType ->
  files w !! DejaVuSerif_ttf = Some TrueType ->
  fonts (snd (register_fonts w)) =
    {[ "SourceSans"; "SourceSans-Bold"; "SourceSerif" ]} ∪ fonts w.
Proof.
  unfold DejaVuSans_ttf, DejaVuSans_Bold_ttf, DejaVuSerif_ttf. intros H1 H2 H3.
  run_registration. rewrite H1. cbn [files fonts]. rewrite H2. cbn [files fonts].
  rewrite H3. cbn [snd fonts]. apply set_eq. set_unfold. intros. tauto.
Qed.

Lemma register_fonts_all_present_witness :
  files (boot fonts_installed) !! DejaVuSerif_ttf = Some TrueType /\
  fonts (snd (register_fonts (boot fonts_installed))) =
    {[ "SourceSans"; "SourceSans-Bold"; "SourceSerif" ]} ∪ standardFonts.
Proof.
  split; [vm_compute; reflexivity|].
  apply (register_fonts_all_present (boot fonts_installed)); vm_compute; reflexivity.
Defined.

(** X3.  When the first font file cannot be read, the block leaves the world
    exactly as it was: the two later registrations are never attempted, so
    nothing is registered even if their files are there. *)
Theorem register_fonts_first_missing (w : world) :
  files w !! DejaVuSans_ttf <> Some TrueType ->
  register_fonts w = (inr tt, w).
Proof.
  unfold DejaVuSans_ttf. intros Hmiss. run_registration.
  destruct (files w !! _) as [[|]|]; [congruence|reflexivity..].
Qed.

Lemma register_fonts_first_missing_witness :
  files (boot regular_missing) !! DejaVuSans_Bold_ttf = Some TrueType /\
  files (boot regular_missing) !! DejaVuSerif_ttf = Some TrueType /\
  register_fonts (boot regular_missing) = (inr tt, boot regular_missing).
Proof.
  split; [vm_compute; reflexivity|]. split; [vm_compute; reflexivity|].
  apply (register_fonts_first_missing (boot regular_missing)).
  vm_compute. discriminate.
Defined.

(** The fonts the content names. *)
Lemma story_fonts :
  Forall (fun n => n = "SourceSans" \/ n = "SourceSans-Bold")%string
         (flat_map fonts_used story).
Proof. apply (bool_decide_unpack _). vm_compute. exact I. Qed.

(** X4.  When the regular and the bold file are there, every font name the
    document asks for is registered by the time of the build: those of the
    paragraphs and tables of the content, and the one the decorator sets for
    the page number.  The serif file plays no part in it. *)
Theorem needed_fonts_registered (w : world) :
  files w !! DejaVuSans_ttf = Some TrueType ->
  files w !! DejaVuSans_Bold_ttf = Some TrueType ->
  Forall (fun n => n ∈ fonts (snd (register_fonts w))) (flat_map fonts_used story) /\
  forall k, Forall (fun n => n ∈ fonts (snd (register_fonts w)))
                   (omap mark_font
                      (marks (snd (on_page (fonts (snd (register_fonts w))) doc (blank k))))).
Proof.
  unfold DejaVuSans_ttf, DejaVuSans_Bold_ttf. intros H1 H2.
  assert (Hreg : ("SourceSans" ∈ fonts (snd (register_fonts w)) /\
                  "SourceSans-Bold" ∈ fonts (snd (register_fonts w)))%string).
  { run_registration. rewrite H1. cbn [files fonts]. rewrite H2. cbn [files fonts].
    destruct (files w !! "/usr/share/fonts/truetype/dejavu/DejaVuSerif.ttf")
      as [[|]|]; cbn [snd fonts]; split;
      first [ apply elem_of_union_r, elem_of_union_r, elem_of_union_l, elem_of_singleton_2;
              reflexivity
            | apply elem_of_union_r, elem_of_union_l, elem_of_singleton_2; reflexivity
            | apply elem_of_union_l, elem_of_singleton_2; reflexivity ]. }
  destruct Hreg as [Hsans Hbold]. split.
  - eapply Forall_impl; [exact story_fonts|]. intros n [->| ->]; assumption.
  - intros k. destruct (on_page_paints _ doc k Hsans) as (c & Hc & Hm).
    rewrite Hc. cbn [snd]. rewrite Hm.
    repeat constructor. exact Hsans.
Qed.

Lemma needed_fonts_registered_witness :
  files (boot serif_missing) !! DejaVuSerif_ttf = None /\
  Forall (fun n => n ∈ fonts (snd (register_fonts (boot serif_missing))))
         (flat_map fonts_used story).
Proof.
  split; [vm_compute; reflexivity|].
  apply (needed_fonts_registered (boot serif_missing)); vm_compute; reflexivity.
Defined.

(** X5.  The third font and one of the styles are never used: no paragraph,
    table or decorator mark names SourceSerif, whatever is registered, and
    no paragraph is set in the style [em]; each of the other six styles sets
    some paragraph. *)
Theorem serif_and_em_unused :
  ("SourceSerif"%string ∉ flat_map fonts_used built_heap) /\
  (forall fn k,
     "SourceSerif"%string ∉ omap mark_font (marks (snd (on_page fn doc (blank k))))) /\
  Forall (fun f => style_of f <> Some "em"%string) built_heap /\
  Forall (fun key => Exists (fun f => style_of f = Some key) built_heap)
         ["h1"; "h2"; "normal"; "toc"; "cover_title"; "subtitle"]%string.
Proof.
  split; [apply (bool_decide_unpack _); vm_compute; exact I|].
  split.
  { intros fn k. destruct (decide ("SourceSans"%string ∈ fn)) as [Hs|Hs].
    - destruct (on_page_paints fn doc k Hs) as (c & Hc & Hm).
      rewrite Hc. cbn [snd]. rewrite Hm. cbn.
      intros Hin. apply list_elem_of_singleton in Hin. discriminate.
    - rewrite (on_page_fails fn doc (blank k) Hs). cbn. apply not_elem_of_nil. }
  split; apply (bool_decide_unpack _); vm_compute; exact I.
Qed.

(** ** The page decorator (lines 48-60 and 271-277) *)

(** X6.  What the decorator draws depends on the page number only: on two
    canvases that report the same page number, whatever colours, line
    width, font or saved states earlier drawing left on them and whichever
    document template is passed, [on_page] adds marks that look the same. *)
Theorem on_page_look_depends_on_page_number_only
    (fn : gset string) (d1 d2 : SimpleDocTemplate) (c1 c2 : canvas) :
  pageNumber c1 = pageNumber c2 ->
  appearance <$> added c1 (snd (on_page fn d1 c1)) =
  appearance <$> added c2 (snd (on_page fn d2 c2)).
Proof.
  intros Hk. destruct (decide ("SourceSans"%string ∈ fn)) as [Hs|Hs].
  - rewrite !(on_page_runs fn) by exact Hs. unfold added. cbn [snd marks].
    rewrite !drop_app_length. cbn. rewrite Hk. reflexivity.
  - rewrite !(on_page_fails fn) by exact Hs. unfold added. cbn [snd marks].
    rewrite !drop_app_length. reflexivity.
Qed.

Lemma on_page_look_depends_on_page_number_only_witness :
  appearance <$> added (blank 3) (snd (on_page needed_fonts doc (blank 3))) =
  appearance <$> added (snd (on_page needed_fonts doc (blank 3)))
                       (snd (on_page needed_fonts doc
                               (snd (on_page needed_fonts doc (blank 3))))).
Proof.
  apply (on_page_look_depends_on_page_number_only needed_fonts doc doc (blank 3)
           (snd (on_page needed_fonts doc (blank 3)))).
  rewrite on_page_runs by by_computation. reflexivity.
Defined.



(** X8.  [header_footer] on its own needs no saved state and raises
    exactly when SourceSans is not registered, KeyError for that name, with
    the two accent lines drawn and no page number.  With SourceSans
    registered it adds three marks, two accent lines in violet at line width
    0.8 and the page number of the canvas in SourceSans 9, and leaves the
    graphics state of the stamp behind. *)
Theorem header_footer_effect (fn : gset string) (d : SimpleDocTemplate) (c : canvas) :
  stateStack (snd (header_footer fn d c)) = stateStack c /\
  pageNumber (snd (header_footer fn d c)) = pageNumber c /\
  ("SourceSans"%string ∈ fn ->
     fst (header_footer fn d c) = inr tt /\
     gs (snd (header_footer fn d c)) = stamp_state /\
     appearance <$> added c (snd (header_footer fn d c)) =
       [ LLine (20 * mm)%Q (PAGE_HEIGHT - 18 * mm)%Q (PAGE_WIDTH - 20 * mm)%Q
               (PAGE_HEIGHT - 18 * mm)%Q ACCENT_VIOLET 0.8%Q;
         LLine (20 * mm)%Q (18 * mm)%Q (PAGE_WIDTH - 20 * mm)%Q (18 * mm)%Q
               ACCENT_VIOLET 0.8%Q;
         LString (PAGE_WIDTH - 20 * mm)%Q (12 * mm)%Q
                 ("Page " ++ str (pageNumber c)) "SourceSans" 9%Q TEXT_LIGHT ]) /\
  ("SourceSans"%string ∉ fn ->
     fst (header_footer fn d c) = inl (KeyError "SourceSans") /\
     appearance <$> added c (snd (header_footer fn d c)) =
       [ LLine (20 * mm)%Q (PAGE_HEIGHT - 18 * mm)%Q (PAGE_WIDTH - 20 * mm)%Q
               (PAGE_HEIGHT - 18 * mm)%Q ACCENT_VIOLET 0.8%Q;
         LLine (20 * mm)%Q (18 * mm)%Q (PAGE_WIDTH - 20 * mm)%Q (18 * mm)%Q
               ACCENT_VIOLET 0.8%Q ]).
Proof.
  destruct (decide ("SourceSans"%string ∈ fn)) as [Hs|Hs].
  - rewrite (header_footer_runs fn d c Hs). unfold added.
    cbn [fst snd stateStack pageNumber marks gs].
    split; [reflexivity|]. split; [reflexivity|]. split; [|contradiction].
    intros _. split; [reflexivity|]. split; [reflexivity|].
    rewrite drop_app_length. reflexivity.
  - rewrite (header_footer_fails fn d c Hs). unfold added.
    cbn [fst snd stateStack pageNumber marks gs].
    split; [reflexivity|]. split; [reflexivity|]. split; [contradiction|].
    intros _. split; [reflexivity|].
    rewrite drop_app_length. reflexivity.
Qed.

Lemma header_footer_effect_witness :
  fst (header_footer needed_fonts doc (blank 1)) = inr tt /\
  fst (header_footer standardFonts doc (blank 1)) = inl (KeyError "SourceSans").
Proof.
  split.
  - apply (header_footer_effect needed_fonts doc (blank 1)). by_computation.
  - apply (header_footer_effect standardFonts doc (blank 1)). by_computation.
Defined.

(** The last text on the canvas after [header_footer] is the page number,
    when SourceSans is registered. *)
Lemma header_footer_last_text (fn : gset string) (d : SimpleDocTemplate) (c : canvas) :
  "SourceSans"%string ∈ fn ->
  last_text (snd (header_footer fn d c)) = Some ("Page " ++ str (pageNumber c))%string.
Proof.
  intros Hs. rewrite (header_footer_runs fn d c Hs). unfold last_text. cbn [snd marks].
  rewrite omap_app. cbn [omap list_omap mark_text]. apply last_snoc.
Qed.

(** X9.  The stamp tells pages apart: if [header_footer], with SourceSans
    registered, writes the same text on two canvases, they report the same
    page number. *)
Theorem stamp_text_determines_page (fn : gset string)
    (d1 d2 : SimpleDocTemplate) (c1 c2 : canvas) :
  "SourceSans"%string ∈ fn ->
  last_text (snd (header_footer fn d1 c1)) = last_text (snd (header_footer fn d2 c2)) ->
  pageNumber c1 = pageNumber c2.
Proof.
  intros Hs. rewrite !(header_footer_last_text fn) by exact Hs.
  intros H. injection H as H. now apply str_inj.
Qed.

Lemma stamp_text_determines_page_witness :
  last_text (snd (header_footer needed_fonts doc (blank 12))) = Some "Page 12"%string /\
  pageNumber (blank 12) = pageNumber (snd (on_page needed_fonts doc (blank 12))).
Proof.
  assert (Hs : "SourceSans"%string ∈ needed_fonts) by by_computation.
  split; [rewrite (header_footer_last_text _ _ _ Hs); reflexivity|].
  apply (stamp_text_determines_page needed_fonts doc doc); [exact Hs|].
  rewrite !(header_footer_last_text _ _ _ Hs), (on_page_runs _ _ _ Hs). reflexivity.
Defined.

(** X10.  The furniture is lined up with the page and with the margins of
    the document template: both accent lines are horizontal and run from the
    left margin to the right margin, one as far below the top edge as the
    other is above the bottom edge; the page number ends at the right
    margin, stands on the page, and its 9 pt of height stay below the footer
    line. *)
Theorem furniture_lined_up (fn : gset string) (k : nat) :
  "SourceSans"%string ∈ fn ->
  exists x1 x2 ytop ybottom ystamp g t,
    added (blank k) (snd (header_footer fn doc (blank k))) =
      [ MLine x1 ytop x2 ytop g; MLine x1 ybottom x2 ybottom g;
        MRightString x2 ystamp t stamp_state ] /\
    (x1 == leftMargin doc)%Q /\
    (x2 == fst (pagesize doc) - rightMargin doc)%Q /\
    (snd (pagesize doc) - ytop == ybottom)%Q /\
    (0 < ystamp)%Q /\
    (ystamp + fontSize stamp_state < ybottom)%Q /\
    (ybottom < bottomMargin doc)%Q /\
    (snd (pagesize doc) - topMargin doc < ytop)%Q.
Proof.
  intros Hs. do 7 eexists. split.
  { rewrite (header_footer_runs fn doc (blank k) Hs). unfold added.
    cbn [snd marks blank length drop app]. reflexivity. }
  repeat split; vm_compute; reflexivity.
Qed.

Lemma furniture_lined_up_witness :
  "SourceSans"%string ∈ needed_fonts /\
  exists x1 x2 ytop ybottom ystamp g t,
    added (blank 2) (snd (header_footer needed_fonts doc (blank 2))) =
      [ MLine x1 ytop x2 ytop g; MLine x1 ybottom x2 ybottom g;
        MRightString x2 ystamp t stamp_state ] /\
    (ystamp + fontSize stamp_state < ybottom)%Q /\
    (ybottom < bottomMargin doc)%Q.
Proof.
  assert (Hs : "SourceSans"%string ∈ needed_fonts) by by_computation.
  split; [exact Hs|].
  destruct (furniture_lined_up needed_fonts 2 Hs)
    as (x1 & x2 & ytop & ybottom & ystamp & g & t & Hadded & _ & _ & _ & _ & Hy & Hb & _).
  exists x1, x2, ytop, ybottom, ystamp, g, t.
  split; [exact Hadded|]. split; [exact Hy|exact Hb].
Defined.

(** ** The style registry and the content statements (lines 73-268) *)

(** X11.  The style registry is well formed: every style is filed under its
    own name, has a positive font size and a leading larger than it, and is
    set in SourceSans or SourceSans-Bold. *)
Theorem styles_well_formed (key : string) (st : ParagraphStyle) :
  styles !! key = Some st ->
  style_name st = key /\
  (0 < style_fontSize st)%Q /\ (style_fontSize st < leading st)%Q /\
  (style_fontName st = "SourceSans" \/ style_fontName st = "SourceSans-Bold")%string.
Proof.
  revert key st. apply map_Forall_to_list.
  set (l := map_to_list styles). vm_compute in l. subst l.
  repeat (constructor; [cbn; repeat split; auto|]). constructor.
Qed.

Lemma styles_well_formed_witness :
  exists st, styles !! "cover_title"%string = Some st /\
             style_name st = "cover_title"%string /\
             (style_fontSize st < leading st)%Q.
Proof.
  eexists. split; [vm_compute; reflexivity|].
  match goal with |- style_name ?st = _ /\ _ =>
    destruct (styles_well_formed "cover_title" st) as (Hn & _ & Hl & _)
  end.
  - vm_compute. reflexivity.
  - split; [exact Hn|exact Hl].
Defined.

(** The outcome of the content part of the run, by what is registered. *)
Lemma content_cases (fl : gmap string file) (fn : gset string) :
  ("SourceSans"%string ∈ fn /\ "SourceSans-Bold"%string ∈ fn /\
   fst (exec content (fresh fl fn)) = inr tt) \/
  (("SourceSans-Bold"%string ∉ fn) /\
   fst (exec content (fresh fl fn)) = inl (ValueError "SourceSans-Bold")) \/
  (("SourceSans"%string ∉ fn) /\ "SourceSans-Bold"%string ∈ fn /\
   fst (exec content (fresh fl fn)) = inl (ValueError "SourceSans")).
Proof.
  rewrite content_by_need. cbn [fst].
  destruct (needed_of_cases fn) as [(-> & Hs & Hb)|[(-> & Hs & Hb)|[(-> & Hs & Hb)|(-> & Hs & Hb)]]].
  - left. split; [exact Hs|]. split; [exact Hb|]. vm_compute. reflexivity.
  - right. left. split; [exact Hb|]. vm_compute. reflexivity.
  - right. right. split; [exact Hs|]. split; [exact Hb|]. vm_compute. reflexivity.
  - right. left. split; [exact Hb|]. vm_compute. reflexivity.
Qed.

(** The content part leaves the filesystem, the registry and standard output
    alone, however it ends. *)
Lemma content_keeps (fl : gmap string file) (fn : gset string) :
  files (at_build fl fn) = fl /\ fonts (at_build fl fn) = fn /\
  stdout (at_build fl fn) = [].
Proof.
  destruct (decide ("SourceSans"%string ∈ fn)) as [Hs|Hs];
    [destruct (decide ("SourceSans-Bold"%string ∈ fn)) as [Hb|Hb]|].
  - rewrite (at_build_eq fl fn Hs Hb). repeat split.
  - destruct (content_stops fl fn) as (_ & _ & _ & ? & ? & ? & _); [tauto|auto].
  - destruct (content_stops fl fn) as (_ & _ & _ & ? & ? & ? & _); [tauto|auto].
Qed.

(** X15.  The content statements raise only for a missing font: every style
    key they use is in the registry, every name is bound before it is read,
    and every [setStyle] is called on a table, so that with SourceSans and
    SourceSans-Bold registered they run to the end, building 53 objects and
    appending 51 of them.  Without one of the two they stop with ValueError
    for the missing name at the first paragraph set in it, the title or the
    subtitle, with at most three objects built.  Either way they touch
    neither the filesystem, nor the font registry, nor standard output. *)
Theorem content_raises_only_for_missing_font (fl : gmap string file) (fn : gset string) :
  files (at_build fl fn) = fl /\ fonts (at_build fl fn) = fn /\
  stdout (at_build fl fn) = [] /\
  (fst (exec content (fresh fl fn)) = inr tt <->
   "SourceSans"%string ∈ fn /\ "SourceSans-Bold"%string ∈ fn) /\
  (fst (exec content (fresh fl fn)) = inr tt ->
   length (heap (at_build fl fn)) = 53 /\ length (elements (at_build fl fn)) = 51) /\
  (forall e, fst (exec content (fresh fl fn)) = inl e ->
     exists font, e = ValueError font /\ (font ∉ fn) /\ font ∈ needed_fonts /\
                  length (heap (at_build fl fn)) <= 3).
Proof.
  destruct (content_keeps fl fn) as (Hfl & Hfn & Hout).
  split; [exact Hfl|]. split; [exact Hfn|]. split; [exact Hout|].
  destruct (content_cases fl fn) as [(Hs & Hb & ->)|[(Hb & ->)|(Hs & Hb & ->)]].
  - split; [tauto|]. split; [|discriminate]. intros _.
    rewrite (at_build_eq fl fn Hs Hb). cbn [heap elements]. split; vm_compute; reflexivity.
  - split; [split; [discriminate|tauto]|]. split; [discriminate|].
    intros e [= <-]. exists "SourceSans-Bold"%string.
    split; [reflexivity|]. split; [exact Hb|]. split; [by_computation|].
    destruct (at_build_cases fl fn) as [(_ & ? & _)|[(_ & -> & _)|(_ & ? & _)]];
      [contradiction| |contradiction].
    vm_compute. lia.
  - split; [split; [discriminate|tauto]|]. split; [discriminate|].
    intros e [= <-]. exists "SourceSans"%string.
    split; [reflexivity|]. split; [exact Hs|]. split; [by_computation|].
    destruct (at_build_cases fl fn) as [(? & _)|[(? & _)|(_ & _ & -> & _)]];
      [contradiction|contradiction|].
    vm_compute. lia.
Qed.

Lemma content_raises_only_for_missing_font_witness :
  length (heap (at_build ∅ needed_fonts)) = 53 /\
  exists font, fst (exec content (fresh ∅ standardFonts)) = inl (ValueError font) /\
               (font ∉ standardFonts).
Proof.
  split.
  - destruct (content_raises_only_for_missing_font ∅ needed_fonts)
      as (_ & _ & _ & _ & Hruns & _).
    destruct Hruns as [Hlen _]; [vm_compute; reflexivity|exact Hlen].
  - destruct (content_raises_only_for_missing_font ∅ standardFonts)
      as (_ & _ & _ & _ & _ & Hstop).
    destruct (Hstop (ValueError "SourceSans-Bold")) as (font & Hfont & Hmiss & _).
    + vm_compute. reflexivity.
    + exists font. split; [|exact Hmiss]. rewrite <- Hfont. vm_compute. reflexivity.
Defined.

(** The states of a run under any registry are those under the registry cut
    down to the two names, but for the registry itself. *)
Lemma trace_lookup_by_need (fl : gmap string file) (fn : gset string) (n : nat) (w : world) :
  trace content (fresh fl fn) !! n = Some w ->
  exists w0, w = with_fonts fn w0 /\
             trace content (fresh fl (needed_of fn)) !! n = Some w0.
Proof. rewrite trace_by_need. apply list_lookup_fmap_Some. Qed.

(** X16.  No reference ever dangles: in every state the content part of the
    run goes through, each reference in [elements], each reference bound to
    a name and each reference in a table cell points to an object that has
    been built. *)
Theorem references_always_valid (fl : gmap string file) (fn : gset string)
    (n : nat) (w : world) :
  trace content (fresh fl fn) !! n = Some w -> references_valid w.
Proof.
  intros Hn. apply trace_lookup_by_need in Hn as (w0 & -> & Hn).
  change (references_valid w0).
  revert n w0 Hn. apply Forall_lookup.
  destruct (needed_of_cases fn) as [(-> & _)|[(-> & _)|[(-> & _)|(-> & _)]]];
    by_computation.
Qed.

Lemma references_always_valid_witness :
  exists w, trace content (fresh ∅ needed_fonts) !! 27 = Some w /\ references_valid w.
Proof.
  eexists. split; [vm_compute; reflexivity|].
  apply (references_always_valid ∅ needed_fonts 27). vm_compute. reflexivity.
Defined.

(** X17.  [elements] is append-only: in every state of the content part of
    the run it is an initial segment of the list the build receives, so
    nothing is ever removed from it, replaced or reordered. *)
Theorem elements_append_only (fl : gmap string file) (fn : gset string)
    (n : nat) (w : world) :
  trace content (fresh fl fn) !! n = Some w ->
  elements w `prefix_of` elements (at_build fl fn).
Proof.
  intros Hn. apply trace_lookup_by_need in Hn as (w0 & -> & Hn).
  rewrite at_build_by_need. cbn [elements with_fonts].
  revert n w0 Hn. apply Forall_lookup.
  destruct (needed_of_cases fn) as [(-> & _)|[(-> & _)|[(-> & _)|(-> & _)]]];
    by_computation.
Qed.

Lemma elements_append_only_witness :
  exists w, trace content (fresh ∅ needed_fonts) !! 27 = Some w /\
            elements w `prefix_of` elements (at_build ∅ needed_fonts).
Proof.
  eexists. split; [vm_compute; reflexivity|].
  apply (elements_append_only ∅ needed_fonts 27). vm_compute. reflexivity.
Defined.

(** Checking that a list of references uses each object of a heap. *)
Lemma used_by_check (h : list Flowable) (refs : list nat) :
  Forall (fun r => r ∈ refs) (seq 0 (length h)) ->
  Forall (fun r => r < length h) refs ->
  forall r, r < length h <-> r ∈ refs.
Proof.
  intros Hall Hin r. split.
  - intros Hr. rewrite Forall_forall in Hall. apply Hall, elem_of_seq. lia.
  - revert r. now apply Forall_forall.
Qed.

(** X18.  Every object the content statements build is used exactly once:
    its reference occurs either once in [elements] or once in a cell of a
    table, never twice and never in both, and no object is left unused. *)
Theorem every_object_used_once (fl : gmap string file) (fn : gset string) :
  let w := at_build fl fn in
  NoDup (elements w ++ flat_map cell_refs (heap w)) /\
  forall r, r < length (heap w) <->
            r ∈ elements w ++ flat_map cell_refs (heap w).
Proof.
  cbv zeta.
  destruct (at_build_cases fl fn)
    as [(_ & _ & -> & -> & _)|[(_ & -> & -> & _)|(_ & _ & -> & -> & _)]];
    (split; [by_computation|apply used_by_check; by_computation]).
Qed.

(** X19.  Every explicit page break of the content sequence is immediately
    followed by a heading in the style [h1]; so the sequence never ends on a
    page break and never has two in a row, and it does not start with one
    either. *)
Theorem page_break_then_heading (i : nat) :
  story !! i = Some PageBreak ->
  story !! S i ≫= style_of = Some "h1"%string /\
  (is_PageBreak <$> head story) = Some false.
Proof.
  intros Hi. split; [|vm_compute; reflexivity].
  assert (Hall : Forall (fun i => story !! i = Some PageBreak ->
                                  story !! S i ≫= style_of = Some "h1"%string)
                        (seq 0 (length story))).
  { apply (bool_decide_unpack _). vm_compute. exact I. }
  rewrite Forall_forall in Hall. apply Hall; [|exact Hi].
  apply elem_of_seq. apply lookup_lt_Some in Hi. lia.
Qed.

Lemma page_break_then_heading_witness :
  story !! 9 = Some PageBreak /\
  story !! 10 ≫= style_of = Some "h1"%string.
Proof.
  split; [vm_compute; reflexivity|].
  apply (page_break_then_heading 9). vm_compute. reflexivity.
Defined.

(** X20.  Every table the script declares is rectangular: it has at least one
    row, each row has exactly one cell per declared column width, every
    width is positive, and where row heights are given there is one per
    row. *)
Theorem tables_rectangular (fl : gmap string file) (fn : gset string)
    (r : nat) (f : Flowable) :
  heap (at_build fl fn) !! r = Some f -> rectangular f.
Proof.
  destruct (at_build_heap fl fn) as [n ->].
  intros Hr. apply lookup_take_Some in Hr as [Hr _].
  revert r f Hr. apply Forall_lookup.
  unfold built_heap.
  repeat (constructor;
          [first [ exact I
                 | split; [discriminate|];
                   split; [repeat constructor|];
                   split; [repeat (constructor; [vm_compute; reflexivity|]); constructor|];
                   first [exact I|reflexivity] ] |]).
  constructor.
Qed.

Lemma tables_rectangular_witness :
  exists f, heap (at_build ∅ needed_fonts) !! 30 = Some f /\ is_Table f = true /\ rectangular f.
Proof.
  eexists. split; [vm_compute; reflexivity|]. split; [reflexivity|].
  apply (tables_rectangular ∅ needed_fonts 30). vm_compute. reflexivity.
Defined.

(** ** The whole script (lines 279-281) *)

(** X21.  Whatever filesystem the script starts on and whatever the layout
    does: no file other than [OUT_PDF] is ever changed; if an exception
    escapes, from the content statements or from the build, nothing has been
    printed and the filesystem is as it was; otherwise exactly one line, the completion message, has been
    printed and [OUT_PDF] holds a document. *)
Theorem main_outcome (height_of : Flowable -> Q) (fs : gmap string file) :
  let run := main height_of (boot fs) in
  (forall path, path <> OUT_PDF -> files (snd run) !! path = fs !! path) /\
  match fst run with
  | inl _ => stdout (snd run) = [] /\ files (snd run) = fs
  | inr _ =>
      stdout (snd run) =
        ["PDF generation script run complete. Output file: " ++ OUT_PDF]%string /\
      exists result, files (snd run) !! OUT_PDF = Some (Pdf result)
  end.
Proof.
  cbv zeta. destruct (register_fonts_boot fs) as (fn & Hreg & _).
  assert (Hstop : ~ ("SourceSans"%string ∈ fn /\ "SourceSans-Bold"%string ∈ fn) ->
            (forall path, path <> OUT_PDF ->
               files (snd (main height_of (boot fs))) !! path = fs !! path) /\
            match fst (main height_of (boot fs)) with
            | inl _ => stdout (snd (main height_of (boot fs))) = [] /\
                       files (snd (main height_of (boot fs))) = fs
            | inr _ =>
                stdout (snd (main height_of (boot fs))) =
                  ["PDF generation script run complete. Output file: " ++ OUT_PDF]%string /\
                exists result,
                  files (snd (main height_of (boot fs))) !! OUT_PDF = Some (Pdf result)
            end).
  { intros Hmiss.
    destruct (main_stops height_of fs fn Hreg Hmiss) as (font & _ & -> & Hfl & Hout).
    cbn [fst snd]. rewrite Hfl, Hout. repeat split. }
  destruct (decide ("SourceSans"%string ∈ fn)) as [Hs|Hs]; [|apply Hstop; tauto].
  destruct (decide ("SourceSans-Bold"%string ∈ fn)) as [Hb|Hb]; [|apply Hstop; tauto].
  rewrite (main_run height_of fs fn Hreg Hs Hb).
  destruct (layout height_of doc (on_page fn) (on_page fn) story) as [e|result].
  - rewrite (at_build_eq fs fn Hs Hb). cbn [fst snd files stdout]. repeat split.
  - cbn [fst snd files stdout]. repeat split.
    + intros path Hpath. now apply lookup_insert_ne.
    + exists result. apply lookup_insert_eq.
Qed.

(** X22.  What the content statements do depends on the environment only
    through whether SourceSans and SourceSans-Bold are registered: on any
    two filesystems, and with any two sets of registered fonts that agree on
    these two names, they end the same way and leave the same objects, the
    same names and the same [elements]. *)
Theorem content_independent_of_environment
    (fl fl' : gmap string file) (fn fn' : gset string) :
  ("SourceSans"%string ∈ fn <-> "SourceSans"%string ∈ fn') ->
  ("SourceSans-Bold"%string ∈ fn <-> "SourceSans-Bold"%string ∈ fn') ->
  fst (exec content (fresh fl fn)) = fst (exec content (fresh fl' fn')) /\
  heap (at_build fl fn) = heap (at_build fl' fn') /\
  globals (at_build fl fn) = globals (at_build fl' fn') /\
  elements (at_build fl fn) = elements (at_build fl' fn').
Proof.
  intros Hsans Hbold. split.
  - destruct (content_cases fl fn) as [(Hs & Hb & ->)|[(Hb & ->)|(Hs & Hb & ->)]];
      destruct (content_cases fl' fn') as [(Hs' & Hb' & ->)|[(Hb' & ->)|(Hs' & Hb' & ->)]];
      first [reflexivity | exfalso; tauto].
  - destruct (at_build_cases fl fn)
      as [(Hs & Hb & -> & -> & ->)|[(Hb & -> & -> & ->)|(Hs & Hb & -> & -> & ->)]];
      destruct (at_build_cases fl' fn')
        as [(Hs' & Hb' & -> & -> & ->)|[(Hb' & -> & -> & ->)|(Hs' & Hb' & -> & -> & ->)]];
      first [repeat split; reflexivity | exfalso; tauto].
Qed.

Lemma content_independent_of_environment_witness :
  heap (at_build ∅ needed_fonts) =
  heap (at_build fonts_installed
          ({[ "SourceSerif"; "SourceSans-Bold"; "SourceSans" ]} ∪ standardFonts)).
Proof.
  apply (content_independent_of_environment ∅ fonts_installed needed_fonts
           ({[ "SourceSerif"; "SourceSans-Bold"; "SourceSans" ]} ∪ standardFonts));
    split; intros _; by_computation.
Defined.

(** X23.  A registration that fails half way keeps what was registered
    before it: when the regular file is there and the bold one cannot be
    read, SourceSans is registered and nothing else, whether or not the
    serif file is there. *)
Theorem register_fonts_second_missing (w : world) :
  files w !! DejaVuSans_ttf = Some TrueType ->
  files w !! DejaVuSans_Bold_ttf <> Some TrueType ->
  fonts (snd (register_fonts w)) = {[ "SourceSans"%string ]} ∪ fonts w /\
  fst (register_fonts w) = inr tt.
Proof.
  unfold DejaVuSans_ttf, DejaVuSans_Bold_ttf. intros H1 H2.
  run_registration. rewrite H1. cbn [files fonts].
  destruct (files w !! "/usr/share/fonts/truetype/dejavu/DejaVuSans-Bold.ttf")
    as [[|]|]; [congruence|split; reflexivity..].
Qed.

Lemma register_fonts_second_missing_witness :
  files (boot {[ DejaVuSans_ttf := TrueType; DejaVuSerif_ttf := TrueType ]})
    !! DejaVuSerif_ttf = Some TrueType /\
  fonts (snd (register_fonts
                (boot {[ DejaVuSans_ttf := TrueType; DejaVuSerif_ttf := TrueType ]})))
  = {[ "SourceSans"%string ]} ∪ standardFonts.
Proof.
  split; [vm_compute; reflexivity|].
  apply (register_fonts_second_missing
           (boot {[ DejaVuSans_ttf := TrueType; DejaVuSerif_ttf := TrueType ]}));
    vm_compute; [reflexivity|discriminate].
Defined.

